(** * squpe-app: the Create Campaign and Go Live screens

    A shallow embedding of the two React Native screens
    [mobile/screens/CreateCampaignScreen.js] and
    [mobile/screens/GoLiveScreen.js]: the form state held in [useState]
    cells, the [validateForm] predicates, and the [handleLaunchCampaign] /
    [handleGoLive] submit handlers with their [try]/[catch]/[finally]
    structure, together with the part of the JavaScript run time they rely
    on ([trim], [split], [parseFloat], [parseInt], truthiness, property
    access). *)

From Stdlib Require Import String Ascii List NArith ZArith Bool Lia.
Import ListNotations.

Set Implicit Arguments.
Set Warnings "-register-all".

(** ** The JavaScript values the screens handle *)

Module JS.

Local Open Scope N_scope.

(** A JavaScript string is a sequence of UTF-16 code units. *)
Definition char := N.
Definition jsstring := list char.

(** Literals: an ASCII text as a string of code units. *)
Definition str (s : string) : jsstring :=
  map N_of_ascii (list_ascii_of_string s).

Arguments str : simpl never.

Fixpoint eqb_str (a b : jsstring) : bool :=
  match a, b with
  | [], [] => true
  | x :: a', y :: b' => (x =? y) && eqb_str a' b'
  | _, _ => false
  end.

(** [WhiteSpace] and [LineTerminator] code points of ECMAScript: what
    [String.prototype.trim] strips and what [parseFloat] / [parseInt] skip. *)
Definition is_whitespace (c : char) : bool :=
  ((0x0009 <=? c) && (c <=? 0x000D))
  || (c =? 0x0020) || (c =? 0x00A0) || (c =? 0x1680)
  || ((0x2000 <=? c) && (c <=? 0x200A))
  || (c =? 0x2028) || (c =? 0x2029) || (c =? 0x202F)
  || (c =? 0x205F) || (c =? 0x3000) || (c =? 0xFEFF).

Fixpoint trimStart (s : jsstring) : jsstring :=
  match s with
  | [] => []
  | c :: s' => if is_whitespace c then trimStart s' else s
  end.

Definition trimEnd (s : jsstring) : jsstring := rev (trimStart (rev s)).

(** [s.trim()] *)
Definition trim (s : jsstring) : jsstring := trimEnd (trimStart s).

(** [s.split(sep)] for a separator of one code unit. *)
Fixpoint split (sep : char) (s : jsstring) : list jsstring :=
  match s with
  | [] => [[]]
  | c :: s' =>
      if c =? sep then [] :: split sep s'
      else match split sep s' with
           | seg :: segs => (c :: seg) :: segs
           | [] => [[c]]
           end
  end.

(** [segs.join(sep)], the inverse of [split]. *)
Fixpoint join (sep : char) (segs : list jsstring) : jsstring :=
  match segs with
  | [] => []
  | [seg] => seg
  | seg :: rest => seg ++ sep :: join sep rest
  end.

(** A string that [trim] leaves alone: it neither starts nor ends with
    white space. *)
Definition trimmed (s : jsstring) : Prop :=
  trimStart s = s /\ trimEnd s = s.

(** *** Numbers

    A Number is kept as the mathematical value it was read from: [Dec neg m e]
    is the Number value nearest to [(-1)^neg * m * 10^e] (round to nearest,
    ties to even, in binary64), which is what [parseFloat], [parseInt] and
    [JSON.parse] produce from a decimal text.  Only the comparison with zero
    and truthiness are needed below, and both are computed exactly. *)
Inductive number : Type :=
  | NaN
  | Infinity (neg : bool)
  | Dec (neg : bool) (m : N) (e : Z).

(** A decimal [m * 10^e] is read as (plus or minus) zero when [m] is zero or
    when it does not exceed half the least positive binary64 value,
    [2^-1075]: the tie goes to the even neighbour, which is zero. *)
Definition rounds_to_zero (m : N) (e : Z) : bool :=
  (m =? 0)
  || ((e <? 0)%Z
      && (Z.of_N m * 2 ^ 1075 <=? 10 ^ (- e))%Z).

(** [x <= 0]: false on [NaN], as every comparison with [NaN] is. *)
Definition le_zero (x : number) : bool :=
  match x with
  | NaN => false
  | Infinity neg => neg
  | Dec neg m e => neg || rounds_to_zero m e
  end.

(** [x > 0] *)
Definition gt_zero (x : number) : bool :=
  match x with
  | NaN => false
  | Infinity neg => negb neg
  | Dec neg m e => negb neg && negb (rounds_to_zero m e)
  end.

Definition is_NaN (x : number) : bool :=
  match x with NaN => true | _ => false end.

(** *** Reading numbers from text *)

Definition is_digit (c : char) : bool := (48 <=? c) && (c <=? 57).

Fixpoint span (p : char -> bool) (s : jsstring) : jsstring * jsstring :=
  match s with
  | [] => ([], [])
  | c :: s' =>
      if p c then let (a, b) := span p s' in (c :: a, b) else ([], s)
  end.

Definition digits_value (radix : N) (val : char -> N) (ds : jsstring) : N :=
  fold_left (fun acc d => radix * acc + val d) ds 0.

Definition dec_val (c : char) : N := c - 48.

Fixpoint starts_with (p s : jsstring) : bool :=
  match p, s with
  | [], _ => true
  | x :: p', y :: s' => (x =? y) && starts_with p' s'
  | _ :: _, [] => false
  end.

(** A leading [-] or [+]. *)
Definition strip_sign (s : jsstring) : bool * jsstring :=
  match s with
  | c :: r => if c =? 45 then (true, r)
              else if c =? 43 then (false, r)
              else (false, s)
  | [] => (false, [])
  end.

(** The [ExponentPart] at the head of [s], when there is a whole one:
    [e] or [E], an optional sign, and at least one digit. *)
Definition exponent_part (s : jsstring) : Z :=
  match s with
  | c :: s1 =>
      if (c =? 101) || (c =? 69) then
        let (neg, s2) := strip_sign s1 in
        let (ds, _) := span is_digit s2 in
        match ds with
        | [] => 0%Z
        | _ => let v := Z.of_N (digits_value 10 dec_val ds) in
               if neg then (- v)%Z else v
        end
      else 0%Z
  | [] => 0%Z
  end.

(** The longest prefix of [s] that is a [StrUnsignedDecimalLiteral], as the
    number it denotes with sign [neg]; [NaN] when no prefix is one. *)
Definition unsigned_decimal (neg : bool) (s : jsstring) : number :=
  if starts_with (str "Infinity") s then Infinity neg
  else
    let (ip, r1) := span is_digit s in
    let whole :=
      match ip with
      | [] => NaN
      | _ => Dec neg (digits_value 10 dec_val ip) (exponent_part r1)
      end in
    match r1 with
    | c :: r2 =>
        if c =? 46 then
          let (fp, r3) := span is_digit r2 in
          match ip, fp with
          | [], [] => NaN
          | _, _ =>
              Dec neg (digits_value 10 dec_val (ip ++ fp))
                  (exponent_part r3 - Z.of_nat (length fp))
          end
        else whole
    | [] => whole
    end.

(** [parseFloat(s)] *)
Definition parseFloat (s : jsstring) : number :=
  let (neg, r) := strip_sign (trimStart s) in
  unsigned_decimal neg r.

Definition is_hex_digit (c : char) : bool :=
  is_digit c || ((97 <=? c) && (c <=? 102)) || ((65 <=? c) && (c <=? 70)).

Definition hex_val (c : char) : N :=
  if is_digit c then c - 48
  else if 97 <=? c then c - 87
  else c - 55.

(** [parseInt(s)] with no radix argument: an optional sign, an optional
    [0x] / [0X] prefix selecting radix 16, then the longest run of digits. *)
Definition strip_hex_prefix (s : jsstring) : option jsstring :=
  match s with
  | c0 :: c1 :: r =>
      if (c0 =? 48) && ((c1 =? 120) || (c1 =? 88)) then Some r else None
  | _ => None
  end.

Definition parseInt (s : jsstring) : number :=
  let (neg, r) := strip_sign (trimStart s) in
  let ds :=
    match strip_hex_prefix r with
    | Some r' => (16, hex_val, fst (span is_hex_digit r'))
    | None => (10, dec_val, fst (span is_digit r))
    end in
  let '(radix, val, digits) := ds in
  match digits with
  | [] => NaN
  | _ => Dec neg (digits_value radix val digits) 0
  end.

(** *** Values *)

Inductive jsval : Type :=
  | VUndefined
  | VNull
  | VBool (b : bool)
  | VNum (x : number)
  | VStr (s : jsstring)
  | VArr (items : list jsval)
  | VObj (props : list (jsstring * jsval))
  | VError (message : jsval)       (* [new Error(message)] *)
  | VTypeError.                    (* a [TypeError] raised by the engine *)

(** ToBoolean on a string: only the empty string is falsy. *)
Definition nonempty (s : jsstring) : bool :=
  match s with [] => false | _ :: _ => true end.

(** ToBoolean *)
Definition truthy (v : jsval) : bool :=
  match v with
  | VUndefined | VNull => false
  | VBool b => b
  | VNum x =>
      match x with
      | NaN => false
      | Infinity _ => true
      | Dec _ m e => negb (rounds_to_zero m e)
      end
  | VStr s => nonempty s
  | VArr _ | VObj _ | VError _ | VTypeError => true
  end.

Fixpoint lookup (k : jsstring) (props : list (jsstring * jsval)) : jsval :=
  match props with
  | [] => VUndefined
  | (k', v) :: ps => if eqb_str k k' then v else lookup k ps
  end.

(** [v.k] for a key [k] that no prototype defines: the own property of an
    object, [undefined] on the other values, and a [TypeError] (here [None])
    on [null] and [undefined]. *)
Definition get (v : jsval) (k : jsstring) : option jsval :=
  match v with
  | VUndefined | VNull => None
  | VObj props => Some (lookup k props)
  | _ => Some VUndefined
  end.

(** [a || b] *)
Definition or_else (a b : jsval) : jsval := if truthy a then a else b.

End JS.

(** ** Handlers as effectful computations

    A handler runs against the values its render captured and performs
    effects in order: [useState] setter calls, [Alert.alert], [fetch],
    [console.error], navigation.  A computation is the list of effects it
    performed together with how it ended: normally, or by a thrown value. *)

Module Eff.

Import JS.

Record button (E : Type) : Type := Button {
  text : jsstring;
  style : option jsstring;
  onPress : list E       (* what pressing the button performs *)
}.

Section Events.

(** The setter calls of the screen at hand. *)
Variable U : Type.

Inductive event : Type :=
  | SetState (u : U)
  | AlertAlert (title : jsstring) (message : jsval)
               (buttons : list (button event))
  | Fetch (url : jsstring) (method : jsstring)
          (headers : list (jsstring * jsstring))
          (body : jsval)         (* the value given to [JSON.stringify] *)
  | ConsoleError (label : jsstring) (err : jsval)
  | Navigate (route : jsstring) (params : jsval)
  | OpenSettings.

Inductive outcome (A : Type) : Type :=
  | Done (a : A)
  | Thrown (e : jsval).

Arguments Thrown {A}.

Definition M (A : Type) : Type := (outcome A * list event)%type.

Definition ret {A} (a : A) : M A := (Done a, []).

Definition bind {A B} (m : M A) (k : A -> M B) : M B :=
  match m with
  | (Done a, l) => let (o, l') := k a in (o, l ++ l')
  | (Thrown e, l) => (Thrown e, l)
  end.

Definition emit (ev : event) : M unit := (Done tt, [ev]).

Definition throw {A} (e : jsval) : M A := (Thrown e, []).

(** [try { body } catch (error) { handler } finally { fin }] *)
Definition try_catch_finally {A} (body : M A) (handler : jsval -> M A)
    (fin : M unit) : M A :=
  let caught :=
    match body with
    | (Done a, l) => (Done a, l)
    | (Thrown e, l) => let (o, l') := handler e in (o, l ++ l')
    end in
  match fin with
  | (Done _, lf) => (fst caught, snd caught ++ lf)
  | (Thrown e, lf) => (Thrown e, snd caught ++ lf)
  end.

(** A promise once settled. *)
Inductive settled (A : Type) : Type :=
  | Resolved (a : A)
  | Rejected (reason : jsval).

Arguments Rejected {A}.

(** [await p] *)
Definition await {A} (p : settled A) : M A :=
  match p with
  | Resolved a => ret a
  | Rejected r => throw r
  end.

(** What the handlers read of a [Response]. *)
Record response : Type := Response {
  ok : bool;
  json : settled jsval       (* [response.json()] *)
}.

(** The network: how the [fetch] of a url with a body settles. *)
Definition network : Type := jsstring -> jsval -> settled response.

Definition fetch (net : network) (url method : jsstring)
    (headers : list (jsstring * jsstring)) (body : jsval) : M response :=
  bind (emit (Fetch url method headers body)) (fun _ => await (net url body)).

(** [v.k] as a step of a computation. *)
Definition prop (v : jsval) (k : jsstring) : M jsval :=
  match get v k with
  | Some x => ret x
  | None => throw VTypeError
  end.

Definition trace {A} (m : M A) : list event := snd m.

Definition is_alert (ev : event) : bool :=
  match ev with AlertAlert _ _ _ => true | _ => false end.

Definition is_fetch (ev : event) : bool :=
  match ev with Fetch _ _ _ _ => true | _ => false end.

(** The messages of the alerts of a trace, in order. *)
Fixpoint alert_messages (t : list event) : list jsval :=
  match t with
  | [] => []
  | AlertAlert _ m _ :: t' => m :: alert_messages t'
  | _ :: t' => alert_messages t'
  end.

(** The bodies of the requests of a trace, in order. *)
Fixpoint requests (t : list event) : list jsval :=
  match t with
  | [] => []
  | Fetch _ _ _ body :: t' => body :: requests t'
  | _ :: t' => requests t'
  end.

(** Does every alert of [t] come at a point where the busy flag is false?
    [busy_of u] is the value a setter call writes to the flag, if it writes
    it; [busy] is the flag before [t]. *)
Fixpoint alerts_while_idle (busy_of : U -> option bool) (busy : bool)
    (t : list event) : bool :=
  match t with
  | [] => true
  | SetState u :: t' =>
      alerts_while_idle busy_of
        (match busy_of u with Some b => b | None => busy end) t'
  | AlertAlert _ _ _ :: t' => negb busy && alerts_while_idle busy_of busy t'
  | _ :: t' => alerts_while_idle busy_of busy t'
  end.

(** The reason a request did not complete: [fetch] rejected, or the body
    could not be read as JSON. *)
Definition transport_failure (p : settled response) : option jsval :=
  match p with
  | Rejected r => Some r
  | Resolved resp =>
      match json resp with
      | Rejected r => Some r
      | Resolved _ => None
      end
  end.

(** The state the next render sees: the setter calls applied in order. *)
Definition commit {S : Type} (apply : U -> S -> S) (s : S)
    (t : list event) : S :=
  fold_left (fun acc ev =>
               match ev with SetState u => apply u acc | _ => acc end) t s.

End Events.

Arguments Thrown {A}.
Arguments Rejected {A}.

Arguments AlertAlert {U}.
Arguments Fetch {U}.
Arguments ConsoleError {U}.
Arguments Navigate {U}.
Arguments OpenSettings {U}.
Arguments ret {U A}.
Arguments throw {U A}.
Arguments await {U A}.
Arguments prop {U}.
Arguments transport_failure : clear implicits.
Arguments fetch {U}.

Module Notations.

Declare Scope eff_scope.
Delimit Scope eff_scope with eff.
Notation "x <- m ;; k" := (bind m (fun x => k))
  (at level 61, m at next level, right associativity) : eff_scope.
Notation "m ;; k" := (bind m (fun _ => k))
  (at level 61, right associativity) : eff_scope.

End Notations.

End Eff.

(** ** mobile/screens/CreateCampaignScreen.js *)

Module CreateCampaignScreen.

Import JS Eff Eff.Notations.
Local Open Scope eff_scope.

(** The [useState] cells of the component. *)
Record state : Type := State {
  title : jsstring;
  description : jsstring;
  fundingGoal : jsstring;
  duration : jsstring;
  tags : jsstring;
  isLoading : bool
}.

(** The first render: every field is the empty string, not loading. *)
Definition initial : state := State [] [] [] [] [] false.

Inductive setter : Type :=
  | setTitle (v : jsstring)
  | setDescription (v : jsstring)
  | setFundingGoal (v : jsstring)
  | setDuration (v : jsstring)
  | setTags (v : jsstring)
  | setIsLoading (v : bool).

Definition apply (u : setter) (s : state) : state :=
  match u with
  | setTitle v =>
      State v (description s) (fundingGoal s) (duration s) (tags s) (isLoading s)
  | setDescription v =>
      State (title s) v (fundingGoal s) (duration s) (tags s) (isLoading s)
  | setFundingGoal v =>
      State (title s) (description s) v (duration s) (tags s) (isLoading s)
  | setDuration v =>
      State (title s) (description s) (fundingGoal s) v (tags s) (isLoading s)
  | setTags v =>
      State (title s) (description s) (fundingGoal s) (duration s) v (isLoading s)
  | setIsLoading v =>
      State (title s) (description s) (fundingGoal s) (duration s) (tags s) v
  end.

Definition ev : Type := event setter.
Definition M : Type -> Type := Eff.M setter.

Definition TITLE_MAX_LENGTH : N := 100.
Definition DESCRIPTION_MAX_LENGTH : N := 500.

(** [Alert.alert(title, message)] with no button list. *)
Definition alert (t m : string) : M unit :=
  emit (AlertAlert (str t) (VStr (str m)) []).

Definition msg_title : string := "Please enter a campaign title".
Definition msg_description : string := "Please enter a campaign description".
Definition msg_goal : string := "Please enter a valid funding goal".
Definition msg_duration : string := "Please enter a valid duration in days".
Definition msg_fallback : string := "Failed to create campaign".
Definition msg_network : string :=
  "Network error. Please check your connection.".

(** [validateForm], lines 33-51. *)
Definition validateForm (s : state) : M bool :=
  if negb (nonempty (trim (title s))) then
    alert "Error" msg_title ;; ret false
  else if negb (nonempty (trim (description s))) then
    alert "Error" msg_description ;; ret false
  else if negb (nonempty (fundingGoal s))
          || le_zero (parseFloat (fundingGoal s)) then
    alert "Error" msg_goal ;; ret false
  else if negb (nonempty (duration s))
          || le_zero (parseInt (duration s)) then
    alert "Error" msg_duration ;; ret false
  else ret true.

Definition comma : char := 44%N.

(** [tags.split(',').map(tag => tag.trim()).filter(tag => tag)] *)
Definition normalize_tags (t : jsstring) : list jsstring :=
  filter nonempty (map trim (split comma t)).

(** The tag list in the words of the specification: cut the input at its
    commas into [segs], trim each segment, drop the empty ones, keep the
    order. *)
Definition tags_as_specified (input : jsstring) (out : list jsstring) : Prop :=
  exists segs,
    segs <> [] /\ Forall (fun g => ~ In comma g) segs /\
    join comma segs = input /\
    out = filter nonempty (map trim segs).

(** The object given to [JSON.stringify], lines 66-73. *)
Definition payload (s : state) : jsval :=
  VObj [ (str "title", VStr (trim (title s)));
         (str "description", VStr (trim (description s)));
         (str "goal", VNum (parseFloat (fundingGoal s)));
         (str "duration_days", VNum (parseInt (duration s)));
         (str "tags", VArr (map VStr (normalize_tags (tags s))));
         (str "user_id", VStr (str "current_user_id")) ].

Definition url : jsstring := str "http://localhost:8000/api/campaigns".

Definition post_headers : list (jsstring * jsstring) :=
  [ (str "Content-Type", str "application/json") ].

(** The title of the success alert ends in U+1F389, two code units. *)
Definition success_title : jsstring :=
  (str "Success! " ++ [0xD83C; 0xDF89])%N.

(** [navigation.navigate('CampaignDetail', { id: data.id })]: reading
    [data.id] throws on a [null] body, before anything is performed. *)
Definition view_campaign (data : jsval) : list ev :=
  match get data (str "id") with
  | Some i => [ Navigate (str "CampaignDetail") (VObj [ (str "id", i) ]) ]
  | None => []
  end.

(** The reset of the form, lines 90-95. *)
Definition create_another : list ev :=
  [ SetState (setTitle []); SetState (setDescription []);
    SetState (setFundingGoal []); SetState (setDuration []);
    SetState (setTags []) ].

Definition success_buttons (data : jsval) : list (button ev) :=
  [ Button (str "View Campaign") None (view_campaign data);
    Button (str "Create Another") None create_another ].

(** The body of the [try] block, lines 60-102. *)
Definition launch_try (net : network) (s : state) : M unit :=
  response <- fetch net url (str "POST") post_headers (payload s) ;;
  data <- await (json response) ;;
  if ok response then
    emit (AlertAlert success_title
            (VStr (str "Your campaign has been launched!"))
            (success_buttons data))
  else
    detail <- prop data (str "detail") ;;
    emit (AlertAlert (str "Error")
            (or_else detail (VStr (str msg_fallback))) []).

(** The [catch] block, lines 103-105. *)
Definition launch_catch (error : jsval) : M unit :=
  alert "Error" msg_network ;;
  emit (ConsoleError (str "Campaign creation error:") error).

(** [handleLaunchCampaign], lines 54-109. *)
Definition handleLaunchCampaign (net : network) (s : state) : M unit :=
  valid <- validateForm s ;;
  if negb valid then ret tt
  else
    emit (SetState (setIsLoading true)) ;;
    try_catch_finally
      (launch_try net s)
      launch_catch
      (emit (SetState (setIsLoading false))).

Definition busy_of (u : setter) : option bool :=
  match u with setIsLoading b => Some b | _ => None end.

(** Validation let the form through: no alert, result [true]. *)
Definition passes (s : state) : Prop := validateForm s = (Done true, []).

(** The state after the handler has run from the render [s]. *)
Definition after_launch (net : network) (s : state) : state :=
  commit apply s (trace (handleLaunchCampaign net s)).

End CreateCampaignScreen.

(** ** mobile/screens/GoLiveScreen.js *)

Module GoLiveScreen.

Import JS Eff Eff.Notations.
Local Open Scope eff_scope.

(** [Camera.Constants.Type] *)
Inductive camera_type : Type := back | front.

(** The [useState] cells of the component; [hasPermission] starts as
    [null], here [None]. *)
Record state : Type := State {
  title : jsstring;
  description : jsstring;
  category : jsstring;
  hasPermission : option bool;
  isLoading : bool;
  cameraType : camera_type;
  showPreview : bool
}.

Definition initial : state := State [] [] [] None false back false.

Inductive setter : Type :=
  | setTitle (v : jsstring)
  | setDescription (v : jsstring)
  | setCategory (v : jsstring)
  | setHasPermission (v : bool)
  | setIsLoading (v : bool)
  | setCameraType (v : camera_type)
  | setShowPreview (v : bool).

Definition apply (u : setter) (s : state) : state :=
  match u with
  | setTitle v =>
      State v (description s) (category s) (hasPermission s) (isLoading s)
            (cameraType s) (showPreview s)
  | setDescription v =>
      State (title s) v (category s) (hasPermission s) (isLoading s)
            (cameraType s) (showPreview s)
  | setCategory v =>
      State (title s) (description s) v (hasPermission s) (isLoading s)
            (cameraType s) (showPreview s)
  | setHasPermission v =>
      State (title s) (description s) (category s) (Some v) (isLoading s)
            (cameraType s) (showPreview s)
  | setIsLoading v =>
      State (title s) (description s) (category s) (hasPermission s) v
            (cameraType s) (showPreview s)
  | setCameraType v =>
      State (title s) (description s) (category s) (hasPermission s)
            (isLoading s) v (showPreview s)
  | setShowPreview v =>
      State (title s) (description s) (category s) (hasPermission s)
            (isLoading s) (cameraType s) v
  end.

Definition ev : Type := event setter.
Definition M : Type -> Type := Eff.M setter.

(** Lines 27-36. *)
Definition categories : list jsstring :=
  [ str "Social Impact"; str "Education"; str "Environment"; str "Health";
    str "Community"; str "Arts & Culture"; str "Technology"; str "Other" ].

Definition alert (t m : string) : M unit :=
  emit (AlertAlert (str t) (VStr (str m)) []).

(** The [useEffect] of lines 39-58, run with the two statuses the
    permission requests resolved to. *)
Definition requestPermissions (cameraStatus audioStatus : jsstring) : M unit :=
  if eqb_str cameraStatus (str "granted")
     && eqb_str audioStatus (str "granted") then
    emit (SetState (setHasPermission true))
  else
    emit (SetState (setHasPermission false)) ;;
    emit (AlertAlert (str "Permissions Required")
            (VStr (str "Camera and microphone access are required to go live."))
            [ Button (str "Cancel") (Some (str "cancel")) [];
              Button (str "Open Settings") None [ OpenSettings ] ]).

Definition msg_title : string := "Please enter a stream title".
Definition msg_short : string := "Stream title must be at least 3 characters".
Definition msg_category : string := "Please select a category".
Definition msg_permission : string :=
  "Please grant camera and microphone permissions".
Definition msg_failed : string :=
  "Failed to start live stream. Please try again.".
Definition msg_fallback : string := "Failed to start stream".

(** [validateForm], lines 61-75. *)
Definition validateForm (s : state) : M bool :=
  if negb (nonempty (trim (title s))) then
    alert "Missing Information" msg_title ;; ret false
  else if (N.of_nat (length (title s)) <? 3)%N then
    alert "Title Too Short" msg_short ;; ret false
  else if negb (nonempty (category s)) then
    alert "Missing Category" msg_category ;; ret false
  else ret true.

(** [!hasPermission]: [null] and [false] are both falsy. *)
Definition granted (s : state) : bool :=
  match hasPermission s with
  | Some true => true
  | _ => false
  end.

(** The object given to [JSON.stringify], lines 96-102. *)
Definition payload (s : state) : jsval :=
  VObj [ (str "title", VStr (trim (title s)));
         (str "description", VStr (trim (description s)));
         (str "category", VStr (category s));
         (str "status", VStr (str "live"));
         (str "viewer_count", VNum (Dec false 0 0)) ].

Definition url : jsstring := str "http://localhost:8000/api/livestreams".

Definition post_headers : list (jsstring * jsstring) :=
  [ (str "Content-Type", str "application/json") ].

(** The title of the success alert starts with U+1F389, two code units. *)
Definition live_title : jsstring :=
  ([0xD83C; 0xDF89] ++ str " You're Live!")%N.

(** The [onPress] of "Start Streaming", lines 114-120. *)
Definition start_streaming (data : jsval) : list ev :=
  match get data (str "id"), get data (str "stream_key") with
  | Some i, Some k =>
      [ Navigate (str "LiveStreaming")
          (VObj [ (str "streamId", i); (str "streamKey", k) ]) ]
  | _, _ => []
  end.

(** The body of the [try] block, lines 88-126. *)
Definition live_try (net : network) (s : state) : M unit :=
  response <- fetch net url (str "POST") post_headers (payload s) ;;
  data <- await (json response) ;;
  if ok response then
    emit (AlertAlert live_title
            (VStr (str "Your stream is now broadcasting to the world!"))
            [ Button (str "Start Streaming") None (start_streaming data) ])
  else
    detail <- prop data (str "detail") ;;
    throw (VError (or_else detail (VStr (str msg_fallback)))).

(** The [catch] block, lines 127-133. *)
Definition live_catch (error : jsval) : M unit :=
  emit (ConsoleError (str "Error starting stream:") error) ;;
  emit (AlertAlert (str "Error") (VStr (str msg_failed))
          [ Button (str "OK") None [] ]).

(** [handleGoLive], lines 78-137. *)
Definition handleGoLive (net : network) (s : state) : M unit :=
  valid <- validateForm s ;;
  if negb valid then ret tt
  else if negb (granted s) then alert "No Permission" msg_permission
  else
    emit (SetState (setIsLoading true)) ;;
    try_catch_finally
      (live_try net s)
      live_catch
      (emit (SetState (setIsLoading false))).

(** [flipCamera], lines 140-146. *)
Definition flipCamera (s : state) : M unit :=
  emit (SetState (setCameraType
                    match cameraType s with
                    | back => front
                    | front => back
                    end)).

Definition busy_of (u : setter) : option bool :=
  match u with setIsLoading b => Some b | _ => None end.

(** Validation let the form through: no alert, result [true]. *)
Definition passes (s : state) : Prop := validateForm s = (Done true, []).

(** The state after the handler has run from the render [s]. *)
Definition after_go_live (net : network) (s : state) : state :=
  commit apply s (trace (handleGoLive net s)).

(** *** The screen as a transition system

    What the user and the platform can do to the rendered screen, and the
    handler each action runs: the two text inputs, the chip of each entry of
    [categories], the preview toggle, the flip button, the submit button,
    and the permission effect on mount.  A text input may hand over any
    text (the [maxLength] cut is not modelled: more texts, not fewer), and
    the buttons of the alerts call no setter on this screen. *)
Inductive action : Type :=
  | onChangeTitle (text : jsstring)
  | onChangeDescription (text : jsstring)
  | onPressCategory (i : nat)
  | onTogglePreview
  | onFlipCamera
  | onGoLive (net : network)
  | onMount (cameraStatus audioStatus : jsstring).

Definition handle (s : state) (a : action) : list ev :=
  match a with
  | onChangeTitle text => [ SetState (setTitle text) ]
  | onChangeDescription text => [ SetState (setDescription text) ]
  | onPressCategory i =>
      match nth_error categories i with
      | Some cat => [ SetState (setCategory cat) ]
      | None => []
      end
  | onTogglePreview => [ SetState (setShowPreview (negb (showPreview s))) ]
  | onFlipCamera => trace (flipCamera s)
  | onGoLive net => trace (handleGoLive net s)
  | onMount cameraStatus audioStatus =>
      trace (requestPermissions cameraStatus audioStatus)
  end.

(** The states the screen can be in.  A handler is a closure over the render
    [s0] it was created in; a setter call it makes lands on whatever state
    [s] is current by then (the handlers are asynchronous, and other
    actions may have come in between). *)
Inductive reachable : state -> Prop :=
  | reach_initial : reachable initial
  | reach_set s0 s a u :
      reachable s0 -> reachable s ->
      In (SetState u) (handle s0 a) ->
      reachable (apply u s).

(** What the component returns, lines 148-320: a spinner while
    [hasPermission] is [null], the "Camera Access Required" panel with its
    "Open Settings" button when it is [false], and the form otherwise. *)
Inductive view : Type :=
  | CheckingPermissions
  | CameraAccessRequired
  | GoLiveForm.

Definition render (s : state) : view :=
  match hasPermission s with
  | None => CheckingPermissions
  | Some false => CameraAccessRequired
  | Some true => GoLiveForm
  end.

End GoLiveScreen.

(** ** Sample forms and networks *)

Module Samples.

Import JS Eff.

(** A campaign form as typed, not loading. *)
Definition campaign_form (title description goal duration tags : string)
    : CreateCampaignScreen.state :=
  CreateCampaignScreen.State (str title) (str description) (str goal)
    (str duration) (str tags) false.

(** A livestream form as typed, permission granted, not loading. *)
Definition live_form (title description category : string)
    : GoLiveScreen.state :=
  GoLiveScreen.State (str title) (str description) (str category)
    (Some true) false GoLiveScreen.back false.

(** The endpoint accepts and answers [{ id: 7, stream_key: "k" }]. *)
Definition net_created : network :=
  fun _ _ =>
    Resolved (Response true
      (Resolved (VObj [ (str "id", VNum (Dec false 7 0));
                        (str "stream_key", VStr (str "k")) ]))).

(** The endpoint declines and answers [{ detail: d }]. *)
Definition net_declines (d : string) : network :=
  fun _ _ =>
    Resolved (Response false (Resolved (VObj [ (str "detail", VStr (str d)) ]))).

(** The request does not complete: [fetch] rejects. *)
Definition net_down : network := fun _ _ => Rejected VTypeError.

Definition clean_water : CreateCampaignScreen.state :=
  campaign_form "Clean Water Project" "Providing clean water" "5000" "30"
    "water, health".

Definition morning_stream : GoLiveScreen.state :=
  live_form "Morning stream" "" "Education".

(** The same form on a screen whose permission request was denied. *)
Definition morning_stream_denied : GoLiveScreen.state :=
  GoLiveScreen.apply (GoLiveScreen.setHasPermission false) morning_stream.

(** The state after pressing the "Education" chip on a fresh screen. *)
Definition education_chosen : GoLiveScreen.state :=
  GoLiveScreen.apply (GoLiveScreen.setCategory (str "Education"))
    GoLiveScreen.initial.

End Samples.

(** * Properties *)

Unset Implicit Arguments.

(** ** Of the string and number operations *)

Module JSFacts.

Import JS.

Lemma length_trimStart_le (s : jsstring) :
  length (trimStart s) <= length s.
Proof.
  induction s as [|c s IH]; simpl; [lia|].
  destruct (is_whitespace c); simpl; lia.
Qed.

Lemma length_trim_le (s : jsstring) : length (trim s) <= length s.
Proof.
  unfold trim, trimEnd. rewrite length_rev.
  etransitivity; [apply length_trimStart_le|].
  rewrite length_rev. apply length_trimStart_le.
Qed.

Lemma trimStart_idem (s : jsstring) : trimStart (trimStart s) = trimStart s.
Proof.
  induction s as [|c s IH]; simpl; [reflexivity|].
  destruct (is_whitespace c) eqn:E; [exact IH|].
  simpl. now rewrite E.
Qed.

Lemma trimStart_snoc (l : jsstring) (c : char) :
  is_whitespace c = false -> trimStart (l ++ [c]) = trimStart l ++ [c].
Proof.
  intros Hc. induction l as [|x l IH]; simpl.
  - now rewrite Hc.
  - destruct (is_whitespace x); [exact IH | reflexivity].
Qed.

Lemma trimEnd_cons (c : char) (s : jsstring) :
  is_whitespace c = false -> trimEnd (c :: s) = c :: trimEnd s.
Proof.
  intros Hc. unfold trimEnd. simpl.
  rewrite (trimStart_snoc _ _ Hc), rev_app_distr. reflexivity.
Qed.

Lemma trimEnd_idem (s : jsstring) : trimEnd (trimEnd s) = trimEnd s.
Proof.
  unfold trimEnd. now rewrite rev_involutive, trimStart_idem.
Qed.

(** What [trim] returns has no white space left at either end. *)
Lemma trimmed_trim (s : jsstring) : trimmed (trim s).
Proof.
  unfold trimmed, trim. split; [|apply trimEnd_idem].
  pose proof (trimStart_idem s) as Hi.
  destruct (trimStart s) as [|c r] eqn:E; [reflexivity|].
  simpl in Hi. destruct (is_whitespace c) eqn:Hc.
  - exfalso. pose proof (length_trimStart_le r) as Hl.
    rewrite Hi in Hl. simpl in Hl. lia.
  - rewrite (trimEnd_cons _ _ Hc). simpl. now rewrite Hc.
Qed.

(** A string of white space only trims to the empty string. *)
Lemma trimStart_blank (s : jsstring) :
  forallb is_whitespace s = true -> trimStart s = [].
Proof.
  induction s as [|c s IH]; simpl; [reflexivity|].
  intros H. apply andb_prop in H as [Hc Hs]. rewrite Hc. auto.
Qed.

Lemma trim_blank (s : jsstring) :
  forallb is_whitespace s = true -> trim s = [].
Proof.
  intros H. unfold trim. now rewrite (trimStart_blank _ H).
Qed.

(** [split] cuts at every separator and nowhere else. *)
Lemma split_not_nil (sep : char) (s : jsstring) : split sep s <> [].
Proof.
  destruct s as [|c s]; simpl; [discriminate|].
  destruct (c =? sep)%N; [discriminate|].
  destruct (split sep s); discriminate.
Qed.

Lemma join_split (sep : char) (s : jsstring) : join sep (split sep s) = s.
Proof.
  induction s as [|c s IH]; simpl; [reflexivity|].
  destruct (c =? sep)%N eqn:E.
  - apply N.eqb_eq in E. subst c.
    pose proof (split_not_nil sep s) as Hn.
    destruct (split sep s) as [|g gs]; [contradiction|].
    simpl. simpl in IH. now rewrite IH.
  - destruct (split sep s) as [|g gs] eqn:Es.
    + now destruct (split_not_nil sep s).
    + destruct gs as [|g' gs']; simpl in *; now rewrite IH.
Qed.

Lemma split_free (sep : char) (s : jsstring) :
  Forall (fun g => ~ In sep g) (split sep s).
Proof.
  induction s as [|c s IH]; simpl.
  - constructor; [intros []|constructor].
  - destruct (c =? sep)%N eqn:E.
    + constructor; [intros []|exact IH].
    + destruct (split sep s) as [|g gs].
      * constructor; [|constructor].
        intros [H|[]]. subst. now rewrite N.eqb_refl in E.
      * inversion IH as [|? ? Hg Hgs]; subst. constructor; [|exact Hgs].
        intros [H|H]; [|now apply Hg].
        subst. now rewrite N.eqb_refl in E.
Qed.

Lemma split_no_sep (sep : char) (g : jsstring) :
  ~ In sep g -> split sep g = [g].
Proof.
  induction g as [|c g IH]; simpl; [reflexivity|].
  intros H. destruct (c =? sep)%N eqn:E.
  - apply N.eqb_eq in E. exfalso. apply H. now left.
  - rewrite IH; [reflexivity|]. intros Hin. apply H. now right.
Qed.

Lemma split_app_sep (sep : char) (g r : jsstring) :
  ~ In sep g -> split sep (g ++ sep :: r) = g :: split sep r.
Proof.
  induction g as [|c g IH]; simpl; intros H.
  - now rewrite N.eqb_refl.
  - destruct (c =? sep)%N eqn:E.
    + apply N.eqb_eq in E. exfalso. apply H. now left.
    + rewrite IH; [reflexivity|]. intros Hin. apply H. now right.
Qed.

(** The segments of a string are determined by it: any non-empty list of
    separator-free strings is what [split] gives back from its [join]. *)
Lemma split_join (sep : char) (segs : list jsstring) :
  segs <> [] -> Forall (fun g => ~ In sep g) segs ->
  split sep (join sep segs) = segs.
Proof.
  induction segs as [|g rest IH]; [congruence|].
  intros _ Hf. inversion Hf as [|? ? Hg Hrest]; subst.
  destruct rest as [|g' rest'].
  - simpl. now apply split_no_sep.
  - change (join sep (g :: g' :: rest')) with (g ++ sep :: join sep (g' :: rest')).
    rewrite (split_app_sep _ _ _ Hg), IH; [reflexivity|discriminate|exact Hrest].
Qed.

(** A number is not above zero exactly when it is [NaN] or [<= 0]. *)
Lemma not_gt_zero (x : number) :
  gt_zero x = false <-> x = NaN \/ le_zero x = true.
Proof.
  destruct x as [|neg|neg m e]; simpl.
  - split; auto.
  - destruct neg; simpl; split; auto; intros [H|H]; congruence.
  - destruct neg, (rounds_to_zero m e); simpl; split; auto;
      intros [H|H]; congruence.
Qed.

Lemma parseFloat_blank (s : jsstring) :
  forallb is_whitespace s = true -> parseFloat s = NaN.
Proof.
  intros H. unfold parseFloat. now rewrite (trimStart_blank _ H).
Qed.

Lemma parseInt_blank (s : jsstring) :
  forallb is_whitespace s = true -> parseInt s = NaN.
Proof.
  intros H. unfold parseInt. now rewrite (trimStart_blank _ H).
Qed.

Lemma eqb_str_eq (a b : jsstring) : eqb_str a b = true <-> a = b.
Proof.
  revert b. induction a as [|x a IH]; intros [|y b]; simpl;
    try (split; [discriminate|discriminate]); [tauto|].
  rewrite andb_true_iff, N.eqb_eq, IH. split.
  - intros [-> ->]. reflexivity.
  - intros H. injection H as -> ->. auto.
Qed.

Lemma nonempty_true (s : jsstring) : nonempty s = true <-> s <> [].
Proof.
  destruct s; simpl; split; congruence.
Qed.

Lemma nonempty_false (s : jsstring) : nonempty s = false <-> s = [].
Proof.
  destruct s; simpl; split; congruence.
Qed.

(** [trim] only removes: what is in the result was in the string. *)
Lemma In_trimStart (c : char) (s : jsstring) :
  In c (trimStart s) -> In c s.
Proof.
  induction s as [|x s IH]; simpl; [tauto|].
  destruct (is_whitespace x); simpl; tauto.
Qed.

Lemma In_trim (c : char) (s : jsstring) : In c (trim s) -> In c s.
Proof.
  unfold trim, trimEnd. intros H.
  apply In_trimStart. apply in_rev. apply In_trimStart. now apply in_rev in H.
Qed.

(** [trim] leaves a trimmed string as it is. *)
Lemma trim_trimmed (s : jsstring) : trimmed s -> trim s = s.
Proof.
  intros [Hs He]. unfold trim. now rewrite Hs.
Qed.

(** The segments of a string are made of its code units. *)
Lemma In_split (sep c : char) (s g : jsstring) :
  In g (split sep s) -> In c g -> In c s.
Proof.
  revert g. induction s as [|x s IH]; simpl; intros g Hg Hc.
  - destruct Hg as [<-|[]]. destruct Hc.
  - destruct (x =? sep)%N.
    + destruct Hg as [<-|Hg]; [destruct Hc|]. right. eauto.
    + destruct (split sep s) as [|g0 gs].
      * destruct Hg as [<-|[]]. destruct Hc as [->|[]]. now left.
      * destruct Hg as [<-|Hg].
        -- destruct Hc as [->|Hc]; [now left|]. right.
           apply (IH g0); [now left|exact Hc].
        -- right. apply (IH g); [now right|exact Hc].
Qed.



End JSFacts.

(** ** Of traces *)

Module EffFacts.

Import JS Eff.

Section Traces.

Context {U S : Type} (apply : U -> S -> S).

Lemma requests_app (a b : list (event U)) :
  requests (a ++ b) = requests a ++ requests b.
Proof.
  induction a as [|e a IH]; [reflexivity|].
  destruct e; simpl; now rewrite IH.
Qed.

Lemma commit_app (s : S) (a b : list (event U)) :
  commit apply s (a ++ b) = commit apply (commit apply s a) b.
Proof.
  unfold commit. apply fold_left_app.
Qed.

(** A trace without setter calls leaves the state alone. *)
Lemma commit_no_setters (s : S) (t : list (event U)) :
  (forall u, ~ In (SetState u) t) -> commit apply s t = s.
Proof.
  revert s. induction t as [|e t IH]; intros s H; [reflexivity|].
  destruct e as [u| | | | |];
    try (cbn; apply IH; intros u' Hin; apply (H u'); now right).
  exfalso. apply (H u). now left.
Qed.


End Traces.

End EffFacts.

(** ** Of the Create Campaign screen *)

Module CampaignFacts.

Import JS Eff CreateCampaignScreen.

(** Validation is the conjunction of its four checks. *)
Lemma campaign_passes_iff (s : state) :
  passes s <->
  nonempty (trim (title s)) = true /\
  nonempty (trim (description s)) = true /\
  (nonempty (fundingGoal s) = true /\
   le_zero (parseFloat (fundingGoal s)) = false) /\
  (nonempty (duration s) = true /\
   le_zero (parseInt (duration s)) = false).
Proof.
  unfold passes, validateForm.
  destruct (nonempty (trim (title s))); simpl;
    [|split; [discriminate|intros [? _]; discriminate]].
  destruct (nonempty (trim (description s))); simpl;
    [|split; [discriminate|intros (_ & ? & _); discriminate]].
  destruct (nonempty (fundingGoal s)); simpl;
    [|split; [discriminate|intros (_ & _ & [? _] & _); discriminate]].
  destruct (le_zero (parseFloat (fundingGoal s))); simpl;
    [split; [discriminate|intros (_ & _ & [_ ?] & _); discriminate]|].
  destruct (nonempty (duration s)); simpl;
    [|split; [discriminate|intros (_ & _ & _ & [? _]); discriminate]].
  destruct (le_zero (parseInt (duration s))); simpl;
    [split; [discriminate|intros (_ & _ & _ & [_ ?]); discriminate]|].
  split; auto.
Qed.

(** Validation either passes silently or raises exactly one alert, with one
    of the four messages, and fails. *)
Lemma campaign_validateForm_cases (s : state) :
  passes s \/
  exists m, In m [msg_title; msg_description; msg_goal; msg_duration] /\
            validateForm s
            = (Done false, [AlertAlert (str "Error") (VStr (str m)) []]).
Proof.
  unfold passes, validateForm.
  destruct (nonempty (trim (title s))); simpl;
    [|right; exists msg_title; simpl; auto].
  destruct (nonempty (trim (description s))); simpl;
    [|right; exists msg_description; simpl; auto].
  destruct (negb (nonempty (fundingGoal s))
            || le_zero (parseFloat (fundingGoal s))); simpl;
    [right; exists msg_goal; simpl; auto 6|].
  destruct (negb (nonempty (duration s))
            || le_zero (parseInt (duration s))); simpl;
    [right; exists msg_duration; simpl; auto 6|].
  now left.
Qed.

(** A form that fails validation: the handler stops there. *)
Lemma launch_refused (net : network) (s : state) (t : list ev) :
  validateForm s = (Done false, t) ->
  handleLaunchCampaign net s = (Done tt, t).
Proof.
  intros H. unfold handleLaunchCampaign. rewrite H. simpl.
  now rewrite app_nil_r.
Qed.

(** The four ways a submitted form can end. *)
Lemma launch_on_success (net : network) (s : state) (data : jsval) :
  passes s ->
  net url (payload s) = Resolved (Response true (Resolved data)) ->
  handleLaunchCampaign net s
  = (Done tt,
     [ SetState (setIsLoading true);
       Fetch url (str "POST") post_headers (payload s);
       AlertAlert success_title
         (VStr (str "Your campaign has been launched!"))
         (success_buttons data);
       SetState (setIsLoading false) ]).
Proof.
  intros Hp Hn. unfold handleLaunchCampaign, launch_try, fetch.
  rewrite Hp. cbn. rewrite Hn. reflexivity.
Qed.

Lemma launch_on_rejection (net : network) (s : state) (data detail : jsval) :
  passes s ->
  net url (payload s) = Resolved (Response false (Resolved data)) ->
  get data (str "detail") = Some detail ->
  handleLaunchCampaign net s
  = (Done tt,
     [ SetState (setIsLoading true);
       Fetch url (str "POST") post_headers (payload s);
       AlertAlert (str "Error") (or_else detail (VStr (str msg_fallback))) [];
       SetState (setIsLoading false) ]).
Proof.
  intros Hp Hn Hd. unfold handleLaunchCampaign, launch_try, fetch, prop.
  rewrite Hp. cbn. rewrite Hn. cbn. rewrite Hd. reflexivity.
Qed.

Lemma launch_on_failure (net : network) (s : state) (reason : jsval) :
  passes s ->
  transport_failure (net url (payload s)) = Some reason ->
  handleLaunchCampaign net s
  = (Done tt,
     [ SetState (setIsLoading true);
       Fetch url (str "POST") post_headers (payload s);
       AlertAlert (str "Error") (VStr (str msg_network)) [];
       ConsoleError (str "Campaign creation error:") reason;
       SetState (setIsLoading false) ]).
Proof.
  intros Hp Hn. unfold handleLaunchCampaign, launch_try, fetch.
  rewrite Hp. cbn.
  destruct (net url (payload s)) as [[o [data|r]]|r]; cbn in Hn;
    inversion Hn; subst; reflexivity.
Qed.

(** A rejection whose body is [null]: reading [data.detail] throws, and the
    [catch] block reports it as a network error. *)
Lemma launch_on_null_body (net : network) (s : state) (data : jsval) :
  passes s ->
  net url (payload s) = Resolved (Response false (Resolved data)) ->
  get data (str "detail") = None ->
  handleLaunchCampaign net s
  = (Done tt,
     [ SetState (setIsLoading true);
       Fetch url (str "POST") post_headers (payload s);
       AlertAlert (str "Error") (VStr (str msg_network)) [];
       ConsoleError (str "Campaign creation error:") VTypeError;
       SetState (setIsLoading false) ]).
Proof.
  intros Hp Hn Hd. unfold handleLaunchCampaign, launch_try, fetch, prop.
  rewrite Hp. cbn. rewrite Hn. cbn. rewrite Hd. reflexivity.
Qed.

(** Every submitted form raises the flag, sends one request, reacts with
    exactly one alert and no setter call, and lowers the flag last. *)
Lemma launch_shape (net : network) (s : state) :
  passes s ->
  exists mid,
    trace (handleLaunchCampaign net s)
    = SetState (setIsLoading true)
      :: Fetch url (str "POST") post_headers (payload s)
      :: mid ++ [ SetState (setIsLoading false) ]
    /\ length (alert_messages mid) = 1
    /\ requests mid = []
    /\ (forall u, ~ In (SetState u) mid).
Proof.
  intros Hp.
  destruct (transport_failure (net url (payload s))) as [r|] eqn:Ht.
  - rewrite (launch_on_failure net s r Hp Ht). eexists. split.
    + cbn [trace snd]. do 2 f_equal.
      change [?a; ?b; ?c] with ([a; b] ++ [c]). reflexivity.
    + repeat split. intros u [H|[H|[]]]; discriminate.
  - destruct (net url (payload s)) as [[o [data|r]]|r] eqn:En;
      cbn in Ht; try discriminate.
    destruct o.
    + rewrite (launch_on_success net s data Hp En). eexists. split.
      * cbn [trace snd]. do 2 f_equal.
        change [?a; ?c] with ([a] ++ [c]). reflexivity.
      * repeat split. intros u [H|[]]; discriminate.
    + destruct (get data (str "detail")) as [d|] eqn:Ed.
      * rewrite (launch_on_rejection net s data d Hp En Ed). eexists. split.
        -- cbn [trace snd]. do 2 f_equal.
           change [?a; ?c] with ([a] ++ [c]). reflexivity.
        -- repeat split. intros u [H|[]]; discriminate.
      * rewrite (launch_on_null_body net s data Hp En Ed). eexists. split.
        -- cbn [trace snd]. do 2 f_equal.
           change [?a; ?b; ?c] with ([a; b] ++ [c]). reflexivity.
        -- repeat split. intros u [H|[H|[]]]; discriminate.
Qed.

(** The requests of a run: the payload of the form when it passes
    validation, none when it does not. *)
Lemma launch_requests (net : network) (s : state) :
  (passes s /\ requests (trace (handleLaunchCampaign net s)) = [payload s])
  \/ (~ passes s /\ requests (trace (handleLaunchCampaign net s)) = []).
Proof.
  destruct (campaign_validateForm_cases s) as [Hp|(m & _ & Hv)].
  - left. split; [exact Hp|].
    destruct (launch_shape net s Hp) as (mid & Ht & _ & Hr & _).
    rewrite Ht. cbn [requests]. rewrite EffFacts.requests_app, Hr. reflexivity.
  - right. split.
    + unfold passes. rewrite Hv. discriminate.
    + now rewrite (launch_refused net s _ Hv).
Qed.

(** A form whose funding goal is empty, or reads as a number that is not
    above zero, is refused with the funding-goal message once title and
    description are in. *)
Lemma goal_refused (net : network) (s : state) :
  nonempty (trim (title s)) = true ->
  nonempty (trim (description s)) = true ->
  fundingGoal s = [] \/ le_zero (parseFloat (fundingGoal s)) = true ->
  handleLaunchCampaign net s
  = (Done tt, [ AlertAlert (str "Error") (VStr (str msg_goal)) [] ]).
Proof.
  intros Ht Hd Hg. apply launch_refused.
  unfold validateForm. rewrite Ht, Hd. simpl.
  destruct Hg as [Hg|Hg]; rewrite Hg; [reflexivity|].
  now rewrite orb_true_r.
Qed.

(** The same for the duration, once the funding goal is in too. *)
Lemma duration_refused (net : network) (s : state) :
  nonempty (trim (title s)) = true ->
  nonempty (trim (description s)) = true ->
  nonempty (fundingGoal s) = true ->
  le_zero (parseFloat (fundingGoal s)) = false ->
  duration s = [] \/ le_zero (parseInt (duration s)) = true ->
  handleLaunchCampaign net s
  = (Done tt, [ AlertAlert (str "Error") (VStr (str msg_duration)) [] ]).
Proof.
  intros Ht Hd Hg Hg' Hn. apply launch_refused.
  unfold validateForm. rewrite Ht, Hd, Hg, Hg'. simpl.
  destruct Hn as [Hn|Hn]; rewrite Hn; [reflexivity|].
  now rewrite orb_true_r.
Qed.

(** A form with an empty required field, or a blank title or description,
    sends nothing. *)
Lemma empty_field_no_request (net : network) (s : state) :
  trim (title s) = [] \/ trim (description s) = []
  \/ fundingGoal s = [] \/ duration s = [] ->
  requests (trace (handleLaunchCampaign net s)) = [].
Proof.
  intros H.
  destruct (launch_requests net s) as [[Hp _]|[_ Hr]]; [|exact Hr].
  apply campaign_passes_iff in Hp as (Ht & Hd & [Hg _] & [Hn _]).
  destruct H as [H|[H|[H|H]]]; rewrite H in *; discriminate.
Qed.

(** A funding goal that is not empty and reads as [NaN] gets through the
    funding-goal check: [NaN <= 0] is false. *)
Lemma nan_goal_passes (s : state) :
  nonempty (trim (title s)) = true ->
  nonempty (trim (description s)) = true ->
  nonempty (fundingGoal s) = true ->
  parseFloat (fundingGoal s) = NaN ->
  nonempty (duration s) = true ->
  le_zero (parseInt (duration s)) = false ->
  passes s.
Proof.
  intros Ht Hd Hg Hnan Hn Hn'. apply campaign_passes_iff.
  rewrite Hnan. simpl. auto.
Qed.

(** C1, as the code runs it.  A funding goal of "abc" (or of "." alone, which
    the decimal pad can type) is not empty and reads as [NaN], and
    [NaN <= 0] is false: the form is not refused, and the request goes out
    with [goal: NaN], whatever the network then does. *)
Theorem nan_funding_goal_is_submitted :
  gt_zero (parseFloat (str "abc")) = false /\
  gt_zero (parseFloat (str ".")) = false /\
  forall net : network,
    requests (trace (handleLaunchCampaign net
                       (Samples.campaign_form "Wells" "Dig wells" "abc" "30" "")))
    = [ VObj [ (str "title", VStr (str "Wells"));
               (str "description", VStr (str "Dig wells"));
               (str "goal", VNum NaN);
               (str "duration_days", VNum (Dec false 30 0));
               (str "tags", VArr []);
               (str "user_id", VStr (str "current_user_id")) ] ]
    /\
    requests (trace (handleLaunchCampaign net
                       (Samples.campaign_form "Wells" "Dig wells" "." "30" "")))
    = [ VObj [ (str "title", VStr (str "Wells"));
               (str "description", VStr (str "Dig wells"));
               (str "goal", VNum NaN);
               (str "duration_days", VNum (Dec false 30 0));
               (str "tags", VArr []);
               (str "user_id", VStr (str "current_user_id")) ] ].
Proof.
  split; [reflexivity|]. split; [reflexivity|]. intros net. split.
  - destruct (launch_requests net
                (Samples.campaign_form "Wells" "Dig wells" "abc" "30" ""))
      as [[_ H]|[Hn _]]; [rewrite H; reflexivity|].
    exfalso. apply Hn. reflexivity.
  - destruct (launch_requests net
                (Samples.campaign_form "Wells" "Dig wells" "." "30" ""))
      as [[_ H]|[Hn _]]; [rewrite H; reflexivity|].
    exfalso. apply Hn. reflexivity.
Qed.

(** C2, as the code runs it.  A duration of "abc" is not empty and reads as
    [NaN], and [NaN <= 0] is false: the form is not refused, and the request
    goes out with [duration_days: NaN]. *)
Theorem nan_duration_is_submitted :
  gt_zero (parseInt (str "abc")) = false /\
  forall net : network,
    requests (trace (handleLaunchCampaign net
                       (Samples.campaign_form "Wells" "Dig wells" "5000" "abc" "")))
    = [ VObj [ (str "title", VStr (str "Wells"));
               (str "description", VStr (str "Dig wells"));
               (str "goal", VNum (Dec false 5000 0));
               (str "duration_days", VNum NaN);
               (str "tags", VArr []);
               (str "user_id", VStr (str "current_user_id")) ] ].
Proof.
  split; [reflexivity|]. intros net.
  destruct (launch_requests net
              (Samples.campaign_form "Wells" "Dig wells" "5000" "abc" ""))
    as [[_ H]|[Hn _]]; [rewrite H; reflexivity|].
  exfalso. apply Hn. reflexivity.
Qed.

(** C6, as the code runs it.  A funding goal, or a duration, that is one
    space is blank but not empty; it reads as [NaN] and gets through its
    check, so the request is sent. *)
Theorem blank_number_field_is_submitted :
  forall net : network,
    requests (trace (handleLaunchCampaign net
                       (Samples.campaign_form "Wells" "Dig wells" " " "30" "")))
    = [ payload (Samples.campaign_form "Wells" "Dig wells" " " "30" "") ]
    /\
    requests (trace (handleLaunchCampaign net
                       (Samples.campaign_form "Wells" "Dig wells" "5000" " " "")))
    = [ payload (Samples.campaign_form "Wells" "Dig wells" "5000" " " "") ].
Proof.
  intros net. split.
  - destruct (launch_requests net
                (Samples.campaign_form "Wells" "Dig wells" " " "30" ""))
      as [[_ H]|[Hn _]]; [exact H|].
    exfalso. apply Hn. reflexivity.
  - destruct (launch_requests net
                (Samples.campaign_form "Wells" "Dig wells" "5000" " " ""))
      as [[_ H]|[Hn _]]; [exact H|].
    exfalso. apply Hn. reflexivity.
Qed.

(** C8.  When the request of a submitted campaign form does not complete,
    the handler shows the connectivity message and nothing else, and the
    state it leaves has the five fields as they were and the busy flag
    down. *)
Theorem transport_failure_keeps_form (net : network) (s : state)
    (reason : jsval) :
  passes s ->
  transport_failure (net url (payload s)) = Some reason ->
  alert_messages (trace (handleLaunchCampaign net s))
  = [ VStr (str msg_network) ]
  /\ isLoading (after_launch net s) = false
  /\ title (after_launch net s) = title s
  /\ description (after_launch net s) = description s
  /\ fundingGoal (after_launch net s) = fundingGoal s
  /\ duration (after_launch net s) = duration s
  /\ tags (after_launch net s) = tags s.
Proof.
  intros Hp Hf. unfold after_launch.
  rewrite (launch_on_failure net s reason Hp Hf).
  repeat split.
Qed.

Lemma transport_failure_keeps_form_witness :
  alert_messages (trace (handleLaunchCampaign Samples.net_down Samples.clean_water))
  = [ VStr (str msg_network) ]
  /\ isLoading (after_launch Samples.net_down Samples.clean_water) = false
  /\ title (after_launch Samples.net_down Samples.clean_water)
     = title Samples.clean_water
  /\ description (after_launch Samples.net_down Samples.clean_water)
     = description Samples.clean_water
  /\ fundingGoal (after_launch Samples.net_down Samples.clean_water)
     = fundingGoal Samples.clean_water
  /\ duration (after_launch Samples.net_down Samples.clean_water)
     = duration Samples.clean_water
  /\ tags (after_launch Samples.net_down Samples.clean_water)
     = tags Samples.clean_water.
Proof.
  apply (transport_failure_keeps_form Samples.net_down Samples.clean_water
           VTypeError); reflexivity.
Defined.

Lemma normalize_tags_specified (input : jsstring) :
  tags_as_specified input (normalize_tags input).
Proof.
  exists (split comma input). repeat split.
  - apply JSFacts.split_not_nil.
  - apply JSFacts.split_free.
  - apply JSFacts.join_split.
Qed.

Lemma tags_as_specified_unique (input : jsstring) (out : list jsstring) :
  tags_as_specified input out -> out = normalize_tags input.
Proof.
  intros (segs & Hne & Hfree & Hjoin & ->). unfold normalize_tags.
  now rewrite <- Hjoin, (JSFacts.split_join comma segs Hne Hfree).
Qed.

Lemma normalize_tags_clean (input : jsstring) :
  Forall (fun t => trimmed t /\ t <> []) (normalize_tags input).
Proof.
  apply Forall_forall. intros t Ht. unfold normalize_tags in Ht.
  apply filter_In in Ht as [Hin Hne].
  apply in_map_iff in Hin as (g & <- & _). split.
  - apply JSFacts.trimmed_trim.
  - intros E. rewrite E in Hne. discriminate.
Qed.

(** C9.  The [tags] of every request the campaign screen sends is the one
    list the specification describes for the tags input: the input cut at
    its commas, each segment trimmed, the empty ones dropped, in order; its
    entries are trimmed and non-empty.  "a, b ,, c" gives a, b, c. *)
Theorem request_tags_normalized :
  (forall (net : network) (s : state) (body : jsval),
     In body (requests (trace (handleLaunchCampaign net s))) ->
     exists out,
       get body (str "tags") = Some (VArr (map VStr out))
       /\ tags_as_specified (tags s) out
       /\ (forall out', tags_as_specified (tags s) out' -> out' = out)
       /\ Forall (fun t => trimmed t /\ t <> []) out)
  /\ normalize_tags (str "a, b ,, c") = [ str "a"; str "b"; str "c" ].
Proof.
  split; [|reflexivity].
  intros net s body Hin.
  destruct (launch_requests net s) as [[_ H]|[_ H]]; rewrite H in Hin;
    [|destruct Hin].
  destruct Hin as [<-|[]].
  exists (normalize_tags (tags s)). split; [reflexivity|].
  split; [apply normalize_tags_specified|].
  split; [apply tags_as_specified_unique|apply normalize_tags_clean].
Qed.

Lemma request_tags_normalized_witness :
  exists out,
    get (payload Samples.clean_water) (str "tags") = Some (VArr (map VStr out))
    /\ tags_as_specified (tags Samples.clean_water) out
    /\ (forall out', tags_as_specified (tags Samples.clean_water) out'
                     -> out' = out)
    /\ Forall (fun t => trimmed t /\ t <> []) out.
Proof.
  apply (proj1 request_tags_normalized Samples.net_created Samples.clean_water).
  vm_compute. left. reflexivity.
Defined.

End CampaignFacts.

(** ** Of the Go Live screen *)

Module GoLiveFacts.

Import JS Eff GoLiveScreen.

(** Validation is the conjunction of its three checks. *)
Lemma live_passes_iff (s : state) :
  passes s <->
  nonempty (trim (title s)) = true /\
  (N.of_nat (length (title s)) <? 3)%N = false /\
  nonempty (category s) = true.
Proof.
  unfold passes, validateForm.
  destruct (nonempty (trim (title s))); simpl;
    [|split; [discriminate|intros [? _]; discriminate]].
  destruct (N.of_nat (length (title s)) <? 3)%N; simpl;
    [split; [discriminate|intros (_ & ? & _); discriminate]|].
  destruct (nonempty (category s)); simpl;
    [|split; [discriminate|intros (_ & _ & ?); discriminate]].
  split; auto.
Qed.

(** Validation either passes silently or raises exactly one alert and
    fails. *)
Lemma live_validateForm_cases (s : state) :
  passes s \/
  exists t m,
    In (t, m) [ ("Missing Information", msg_title);
                ("Title Too Short", msg_short);
                ("Missing Category", msg_category) ]%string /\
    validateForm s = (Done false, [AlertAlert (str t) (VStr (str m)) []]).
Proof.
  unfold passes, validateForm.
  destruct (nonempty (trim (title s))); simpl;
    [|right; do 2 eexists; split; [left; reflexivity|reflexivity]].
  destruct (N.of_nat (length (title s)) <? 3)%N; simpl;
    [right; do 2 eexists; split; [right; left; reflexivity|reflexivity]|].
  destruct (nonempty (category s)); simpl;
    [|right; do 2 eexists; split; [right; right; left; reflexivity|reflexivity]].
  now left.
Qed.

(** A form that fails validation: the handler stops there. *)
Lemma go_live_refused (net : network) (s : state) (t : list ev) :
  validateForm s = (Done false, t) ->
  handleGoLive net s = (Done tt, t).
Proof.
  intros H. unfold handleGoLive. rewrite H. simpl.
  now rewrite app_nil_r.
Qed.

(** A valid form without the permission: the handler says so and stops. *)
Lemma go_live_no_permission (net : network) (s : state) :
  passes s -> granted s = false ->
  handleGoLive net s
  = (Done tt, [ AlertAlert (str "No Permission") (VStr (str msg_permission)) [] ]).
Proof.
  intros Hp Hg. unfold handleGoLive. rewrite Hp, Hg. reflexivity.
Qed.

(** The four ways a submitted form can end. *)
Lemma go_live_on_success (net : network) (s : state) (data : jsval) :
  passes s -> granted s = true ->
  net url (payload s) = Resolved (Response true (Resolved data)) ->
  handleGoLive net s
  = (Done tt,
     [ SetState (setIsLoading true);
       Fetch url (str "POST") post_headers (payload s);
       AlertAlert live_title
         (VStr (str "Your stream is now broadcasting to the world!"))
         [ Button (str "Start Streaming") None (start_streaming data) ];
       SetState (setIsLoading false) ]).
Proof.
  intros Hp Hg Hn. unfold handleGoLive, live_try, fetch.
  rewrite Hp, Hg. cbn. rewrite Hn. reflexivity.
Qed.

Lemma go_live_on_rejection (net : network) (s : state) (data detail : jsval) :
  passes s -> granted s = true ->
  net url (payload s) = Resolved (Response false (Resolved data)) ->
  get data (str "detail") = Some detail ->
  handleGoLive net s
  = (Done tt,
     [ SetState (setIsLoading true);
       Fetch url (str "POST") post_headers (payload s);
       ConsoleError (str "Error starting stream:")
         (VError (or_else detail (VStr (str msg_fallback))));
       AlertAlert (str "Error") (VStr (str msg_failed))
         [ Button (str "OK") None [] ];
       SetState (setIsLoading false) ]).
Proof.
  intros Hp Hg Hn Hd. unfold handleGoLive, live_try, fetch, prop.
  rewrite Hp, Hg. cbn. rewrite Hn. cbn. rewrite Hd. reflexivity.
Qed.

Lemma go_live_on_null_body (net : network) (s : state) (data : jsval) :
  passes s -> granted s = true ->
  net url (payload s) = Resolved (Response false (Resolved data)) ->
  get data (str "detail") = None ->
  handleGoLive net s
  = (Done tt,
     [ SetState (setIsLoading true);
       Fetch url (str "POST") post_headers (payload s);
       ConsoleError (str "Error starting stream:") VTypeError;
       AlertAlert (str "Error") (VStr (str msg_failed))
         [ Button (str "OK") None [] ];
       SetState (setIsLoading false) ]).
Proof.
  intros Hp Hg Hn Hd. unfold handleGoLive, live_try, fetch, prop.
  rewrite Hp, Hg. cbn. rewrite Hn. cbn. rewrite Hd. reflexivity.
Qed.

Lemma go_live_on_failure (net : network) (s : state) (reason : jsval) :
  passes s -> granted s = true ->
  transport_failure (net url (payload s)) = Some reason ->
  handleGoLive net s
  = (Done tt,
     [ SetState (setIsLoading true);
       Fetch url (str "POST") post_headers (payload s);
       ConsoleError (str "Error starting stream:") reason;
       AlertAlert (str "Error") (VStr (str msg_failed))
         [ Button (str "OK") None [] ];
       SetState (setIsLoading false) ]).
Proof.
  intros Hp Hg Hn. unfold handleGoLive, live_try, fetch.
  rewrite Hp, Hg. cbn.
  destruct (net url (payload s)) as [[o [data|r]]|r]; cbn in Hn;
    inversion Hn; subst; reflexivity.
Qed.

(** Every submitted form raises the flag, sends one request, reacts with
    exactly one alert and no setter call, and lowers the flag last. *)
Lemma go_live_shape (net : network) (s : state) :
  passes s -> granted s = true ->
  exists mid,
    trace (handleGoLive net s)
    = SetState (setIsLoading true)
      :: Fetch url (str "POST") post_headers (payload s)
      :: mid ++ [ SetState (setIsLoading false) ]
    /\ length (alert_messages mid) = 1
    /\ requests mid = []
    /\ (forall u, ~ In (SetState u) mid).
Proof.
  intros Hp Hg.
  destruct (transport_failure (net url (payload s))) as [r|] eqn:Ht.
  - rewrite (go_live_on_failure net s r Hp Hg Ht). eexists. split.
    + cbn [trace snd]. do 2 f_equal.
      change [?a; ?b; ?c] with ([a; b] ++ [c]). reflexivity.
    + repeat split. intros u [H|[H|[]]]; discriminate.
  - destruct (net url (payload s)) as [[o [data|r]]|r] eqn:En;
      cbn in Ht; try discriminate.
    destruct o.
    + rewrite (go_live_on_success net s data Hp Hg En). eexists. split.
      * cbn [trace snd]. do 2 f_equal.
        change [?a; ?c] with ([a] ++ [c]). reflexivity.
      * repeat split. intros u [H|[]]; discriminate.
    + destruct (get data (str "detail")) as [d|] eqn:Ed.
      * rewrite (go_live_on_rejection net s data d Hp Hg En Ed).
        eexists. split.
        -- cbn [trace snd]. do 2 f_equal.
           change [?a; ?b; ?c] with ([a; b] ++ [c]). reflexivity.
        -- repeat split. intros u [H|[H|[]]]; discriminate.
      * rewrite (go_live_on_null_body net s data Hp Hg En Ed).
        eexists. split.
        -- cbn [trace snd]. do 2 f_equal.
           change [?a; ?b; ?c] with ([a; b] ++ [c]). reflexivity.
        -- repeat split. intros u [H|[H|[]]]; discriminate.
Qed.

(** A run that stops before the request is one alert and nothing else. *)
Lemma go_live_stopped (net : network) (s : state) :
  ~ (passes s /\ granted s = true) ->
  exists t m, trace (handleGoLive net s) = [ AlertAlert t (VStr (str m)) [] ].
Proof.
  intros Hn. destruct (live_validateForm_cases s) as [Hp|(t & m & _ & Hv)].
  - destruct (granted s) eqn:Hg; [exfalso; auto|].
    rewrite (go_live_no_permission net s Hp Hg). now do 2 eexists.
  - rewrite (go_live_refused net s _ Hv). now do 2 eexists.
Qed.

(** The requests of a run: the payload of the form when it passes
    validation with the permission granted, none otherwise. *)
Lemma go_live_requests (net : network) (s : state) :
  (passes s /\ granted s = true
   /\ requests (trace (handleGoLive net s)) = [payload s])
  \/ (~ (passes s /\ granted s = true)
      /\ requests (trace (handleGoLive net s)) = []).
Proof.
  destruct (live_validateForm_cases s) as [Hp|(t & m & _ & Hv)].
  - destruct (granted s) eqn:Hg.
    + left. repeat split; trivial.
      destruct (go_live_shape net s Hp Hg) as (mid & Ht & _ & Hr & _).
      rewrite Ht. cbn [requests].
      rewrite EffFacts.requests_app, Hr. reflexivity.
    + right. split; [intros [_ ?]; discriminate|].
      now rewrite (go_live_no_permission net s Hp Hg).
  - right. split.
    + intros [Hp _]. unfold passes in Hp. rewrite Hv in Hp. discriminate.
    + now rewrite (go_live_refused net s _ Hv).
Qed.

(** A title of fewer than three code units, padding included, is refused
    with the missing-title or the too-short message. *)
Lemma short_title_refused (net : network) (s : state) :
  length (title s) < 3 ->
  handleGoLive net s
  = (Done tt, [ AlertAlert (str "Missing Information") (VStr (str msg_title)) [] ])
  \/
  handleGoLive net s
  = (Done tt, [ AlertAlert (str "Title Too Short") (VStr (str msg_short)) [] ]).
Proof.
  intros Hl.
  assert (Hlt : (N.of_nat (length (title s)) <? 3)%N = true)
    by (apply N.ltb_lt; lia).
  destruct (nonempty (trim (title s))) eqn:Ht.
  - right. apply go_live_refused. unfold validateForm.
    now rewrite Ht, Hlt.
  - left. apply go_live_refused. unfold validateForm. now rewrite Ht.
Qed.

(** A title whose trimmed form has three code units or more gets through
    both title checks. *)
Lemma long_trimmed_title_accepted (s : state) :
  3 <= length (trim (title s)) ->
  nonempty (trim (title s)) = true /\
  (N.of_nat (length (title s)) <? 3)%N = false.
Proof.
  intros Hl. split.
  - destruct (trim (title s)); [simpl in Hl; lia|reflexivity].
  - apply N.ltb_ge. pose proof (JSFacts.length_trim_le (title s)). lia.
Qed.

(** C3, as the code runs it.  The length check reads [title.length], the
    length before trimming: " a " trims to "a", one character, but has
    length 3, so with a category chosen and the permission granted the
    form is not refused and the request goes out with the title "a". *)
Theorem padded_short_title_is_submitted :
  trim (str " a ") = str "a" /\
  forall net : network,
    requests (trace (handleGoLive net
                       (Samples.live_form " a " "" "Education")))
    = [ VObj [ (str "title", VStr (str "a"));
               (str "description", VStr []);
               (str "category", VStr (str "Education"));
               (str "status", VStr (str "live"));
               (str "viewer_count", VNum (Dec false 0 0)) ] ].
Proof.
  split; [reflexivity|]. intros net.
  destruct (go_live_requests net (Samples.live_form " a " "" "Education"))
    as [(_ & _ & H)|[Hn _]]; [rewrite H; reflexivity|].
  exfalso. apply Hn. split; reflexivity.
Qed.

(** C7.  Without the permission ([hasPermission] still [null], or [false])
    the handler sends no request and changes no state: it shows one alert
    and stops, and on a valid form that alert is the permission message. *)
Theorem no_permission_no_request (net : network) (s : state) :
  hasPermission s <> Some true ->
  requests (trace (handleGoLive net s)) = []
  /\ (exists t m, trace (handleGoLive net s) = [ AlertAlert t (VStr (str m)) [] ])
  /\ (passes s ->
      trace (handleGoLive net s)
      = [ AlertAlert (str "No Permission") (VStr (str msg_permission)) [] ])
  /\ after_go_live net s = s.
Proof.
  intros Hperm.
  assert (Hg : granted s = false).
  { unfold granted. destruct (hasPermission s) as [[|]|]; congruence. }
  assert (Hn : ~ (passes s /\ granted s = true))
    by (intros [_ H]; congruence).
  destruct (go_live_stopped net s Hn) as (t & m & Ht).
  split; [now rewrite Ht|]. split; [now exists t, m|]. split.
  - intros Hp. now rewrite (go_live_no_permission net s Hp Hg).
  - unfold after_go_live. now rewrite Ht.
Qed.

Lemma no_permission_no_request_witness :
  requests (trace (handleGoLive Samples.net_created Samples.morning_stream_denied))
  = []
  /\ (exists t m,
        trace (handleGoLive Samples.net_created Samples.morning_stream_denied)
        = [ AlertAlert t (VStr (str m)) [] ])
  /\ (passes Samples.morning_stream_denied ->
      trace (handleGoLive Samples.net_created Samples.morning_stream_denied)
      = [ AlertAlert (str "No Permission") (VStr (str msg_permission)) [] ])
  /\ after_go_live Samples.net_created Samples.morning_stream_denied
     = Samples.morning_stream_denied.
Proof.
  apply (no_permission_no_request Samples.net_created
           Samples.morning_stream_denied).
  vm_compute. discriminate.
Defined.

(** The only setter the submit handler calls is [setIsLoading]. *)
Lemma go_live_setters (net : network) (s : state) (u : setter) :
  In (SetState u) (trace (handleGoLive net s)) ->
  exists b, u = setIsLoading b.
Proof.
  intros Hin.
  destruct (live_validateForm_cases s) as [Hp|(t & m & _ & Hv)].
  - destruct (granted s) eqn:Hg.
    + destruct (go_live_shape net s Hp Hg) as (mid & Ht & _ & _ & Hmid).
      rewrite Ht in Hin. destruct Hin as [H|[H|H]].
      * injection H as <-. now exists true.
      * discriminate.
      * apply in_app_or in H as [H|[H|[]]].
        -- now destruct (Hmid u).
        -- injection H as <-. now exists false.
    + rewrite (go_live_no_permission net s Hp Hg) in Hin.
      destruct Hin as [H|[]]. discriminate.
  - rewrite (go_live_refused net s _ Hv) in Hin.
    destruct Hin as [H|[]]. discriminate.
Qed.

(** The setter calls that write [category] come from the chips. *)
Lemma handle_category (s : state) (a : action) (v : jsstring) :
  In (SetState (setCategory v)) (handle s a) -> In v categories.
Proof.
  destruct a as [text|text|i| | |net|c m]; simpl.
  - intros [H|[]]. discriminate.
  - intros [H|[]]. discriminate.
  - destruct (nth_error categories i) as [cat|] eqn:E; [|intros []].
    intros [H|[]]. injection H as <-. exact (nth_error_In _ _ E).
  - intros [H|[]]. discriminate.
  - intros [H|[]]. discriminate.
  - intros H. apply go_live_setters in H as [b H]. discriminate.
  - unfold requestPermissions.
    destruct (_ && _); cbn; intuition discriminate.
Qed.

Lemma reachable_category (s : state) :
  reachable s -> category s = [] \/ In (category s) categories.
Proof.
  induction 1 as [|s0 s a u _ _ _ IH Hin]; [now left|].
  destruct u; simpl; try exact IH.
  right. exact (handle_category s0 a v Hin).
Qed.

(** C10.  In every reachable state of the Go Live screen the category is
    the empty string or one of the eight entries of [categories]; so every
    request the screen sends, having passed the non-emptiness check,
    carries one of the eight. *)
Theorem category_is_listed (s : state) :
  reachable s ->
  (category s = [] \/ In (category s) categories)
  /\ length categories = 8
  /\ forall (net : network) (body : jsval),
       In body (requests (trace (handleGoLive net s))) ->
       exists cat,
         In cat categories /\ get body (str "category") = Some (VStr cat).
Proof.
  intros Hr. pose proof (reachable_category s Hr) as Hc.
  split; [exact Hc|]. split; [reflexivity|].
  intros net body Hin.
  destruct (go_live_requests net s) as [(Hp & _ & H)|[_ H]];
    rewrite H in Hin; [|destruct Hin].
  destruct Hin as [<-|[]].
  exists (category s). split; [|reflexivity].
  apply live_passes_iff in Hp as (_ & _ & Hne).
  destruct Hc as [Hc|Hc]; [|exact Hc].
  rewrite Hc in Hne. discriminate.
Qed.

Lemma category_is_listed_witness :
  (category Samples.education_chosen = []
   \/ In (category Samples.education_chosen) categories)
  /\ length categories = 8
  /\ forall (net : network) (body : jsval),
       In body (requests (trace (handleGoLive net Samples.education_chosen))) ->
       exists cat,
         In cat categories /\ get body (str "category") = Some (VStr cat).
Proof.
  apply (category_is_listed Samples.education_chosen).
  apply (@reach_set initial initial (onPressCategory 1)
           (setCategory (str "Education")) reach_initial reach_initial).
  simpl. left. reflexivity.
Defined.

End GoLiveFacts.

(** ** Of both screens *)

Module SubmissionFacts.

Import JS Eff.

(** C4, where it fails.  The livestream endpoint declines with
    [{ detail: "Stream limit reached" }]: the alert does not show it.  The
    handler throws an [Error] made from it, its own [catch] block logs that
    error and shows the fixed message. *)
Lemma live_rejection_hides_detail :
  alert_messages
    (trace (GoLiveScreen.handleGoLive
              (Samples.net_declines "Stream limit reached")
              Samples.morning_stream))
  <> [ VStr (str "Stream limit reached") ]
  /\ alert_messages
       (trace (GoLiveScreen.handleGoLive
                 (Samples.net_declines "Stream limit reached")
                 Samples.morning_stream))
     = [ VStr (str GoLiveScreen.msg_failed) ].
Proof.
  split; [|reflexivity]. vm_compute. discriminate.
Qed.

(** C4, amended.  When the request completes and the endpoint declines with
    a body [data] that is not [null]: the campaign screen shows
    [data.detail] itself when it is truthy and "Failed to create campaign"
    when it is not (absent, or an empty string); the livestream screen shows
    "Failed to start live stream. Please try again." whatever [data.detail]
    is, and logs the error made from it. *)
Theorem rejection_messages :
  (forall (net : network) (s : CreateCampaignScreen.state)
          (data detail : jsval),
     CreateCampaignScreen.passes s ->
     net CreateCampaignScreen.url (CreateCampaignScreen.payload s)
     = Resolved (Response false (Resolved data)) ->
     get data (str "detail") = Some detail ->
     alert_messages (trace (CreateCampaignScreen.handleLaunchCampaign net s))
     = [ if truthy detail then detail
         else VStr (str CreateCampaignScreen.msg_fallback) ])
  /\
  (forall (net : network) (s : GoLiveScreen.state) (data detail : jsval),
     GoLiveScreen.passes s -> GoLiveScreen.granted s = true ->
     net GoLiveScreen.url (GoLiveScreen.payload s)
     = Resolved (Response false (Resolved data)) ->
     get data (str "detail") = Some detail ->
     alert_messages (trace (GoLiveScreen.handleGoLive net s))
     = [ VStr (str GoLiveScreen.msg_failed) ]
     /\ In (ConsoleError (str "Error starting stream:")
              (VError (if truthy detail then detail
                       else VStr (str GoLiveScreen.msg_fallback))))
           (trace (GoLiveScreen.handleGoLive net s))).
Proof.
  split.
  - intros net s data detail Hp Hn Hd.
    now rewrite (CampaignFacts.launch_on_rejection net s data detail Hp Hn Hd).
  - intros net s data detail Hp Hg Hn Hd.
    rewrite (GoLiveFacts.go_live_on_rejection net s data detail Hp Hg Hn Hd).
    split; [reflexivity|]. cbn. auto.
Qed.

Lemma rejection_messages_witness :
  alert_messages
    (trace (CreateCampaignScreen.handleLaunchCampaign
              (Samples.net_declines "Title already used")
              Samples.clean_water))
  = [ VStr (str "Title already used") ]
  /\ alert_messages
       (trace (GoLiveScreen.handleGoLive
                 (Samples.net_declines "Stream limit reached")
                 Samples.morning_stream))
     = [ VStr (str GoLiveScreen.msg_failed) ].
Proof.
  split.
  - apply (proj1 rejection_messages
             (Samples.net_declines "Title already used")
             Samples.clean_water
             (VObj [ (str "detail", VStr (str "Title already used")) ])
             (VStr (str "Title already used"))); reflexivity.
  - apply (proj2 rejection_messages
             (Samples.net_declines "Stream limit reached")
             Samples.morning_stream
             (VObj [ (str "detail", VStr (str "Stream limit reached")) ])
             (VStr (str "Stream limit reached"))); reflexivity.
Defined.

(** C5, where it fails.  On both screens and in each of the three outcomes
    the alert is raised while the busy flag is still up: [setIsLoading(false)]
    sits in the [finally] block, which runs after the [try] and [catch]
    blocks have raised their alert. *)
Lemma alert_raised_while_busy :
  alerts_while_idle CreateCampaignScreen.busy_of false
    (trace (CreateCampaignScreen.handleLaunchCampaign
              Samples.net_created Samples.clean_water))
  = false
  /\ alerts_while_idle CreateCampaignScreen.busy_of false
       (trace (CreateCampaignScreen.handleLaunchCampaign
                 (Samples.net_declines "no") Samples.clean_water))
     = false
  /\ alerts_while_idle CreateCampaignScreen.busy_of false
       (trace (CreateCampaignScreen.handleLaunchCampaign
                 Samples.net_down Samples.clean_water))
     = false
  /\ alerts_while_idle GoLiveScreen.busy_of false
       (trace (GoLiveScreen.handleGoLive
                 Samples.net_created Samples.morning_stream))
     = false
  /\ alerts_while_idle GoLiveScreen.busy_of false
       (trace (GoLiveScreen.handleGoLive
                 (Samples.net_declines "no") Samples.morning_stream))
     = false
  /\ alerts_while_idle GoLiveScreen.busy_of false
       (trace (GoLiveScreen.handleGoLive
                 Samples.net_down Samples.morning_stream))
     = false.
Proof.
  repeat split.
Qed.

(** C5, amended.  On either screen, a submission that gets to the network
    call raises the busy flag, sends the request, raises exactly one alert
    with no setter call in between, and lowers the flag as its last effect:
    whatever the outcome, the state it leaves has the flag down. *)
Theorem busy_flag_cleared_last :
  (forall (net : network) (s : CreateCampaignScreen.state),
     CreateCampaignScreen.passes s ->
     exists mid,
       trace (CreateCampaignScreen.handleLaunchCampaign net s)
       = SetState (CreateCampaignScreen.setIsLoading true)
         :: Fetch CreateCampaignScreen.url (str "POST")
              CreateCampaignScreen.post_headers
              (CreateCampaignScreen.payload s)
         :: mid ++ [ SetState (CreateCampaignScreen.setIsLoading false) ]
       /\ length (alert_messages mid) = 1
       /\ (forall u, ~ In (SetState u) mid)
       /\ CreateCampaignScreen.isLoading
            (CreateCampaignScreen.after_launch net s) = false)
  /\
  (forall (net : network) (s : GoLiveScreen.state),
     GoLiveScreen.passes s -> GoLiveScreen.granted s = true ->
     exists mid,
       trace (GoLiveScreen.handleGoLive net s)
       = SetState (GoLiveScreen.setIsLoading true)
         :: Fetch GoLiveScreen.url (str "POST") GoLiveScreen.post_headers
              (GoLiveScreen.payload s)
         :: mid ++ [ SetState (GoLiveScreen.setIsLoading false) ]
       /\ length (alert_messages mid) = 1
       /\ (forall u, ~ In (SetState u) mid)
       /\ GoLiveScreen.isLoading (GoLiveScreen.after_go_live net s) = false).
Proof.
  split.
  - intros net s Hp.
    destruct (CampaignFacts.launch_shape net s Hp) as (mid & Ht & Ha & _ & Hs).
    exists mid. repeat split; trivial.
    unfold CreateCampaignScreen.after_launch. rewrite Ht, !app_comm_cons.
    now rewrite EffFacts.commit_app.
  - intros net s Hp Hg.
    destruct (GoLiveFacts.go_live_shape net s Hp Hg)
      as (mid & Ht & Ha & _ & Hs).
    exists mid. repeat split; trivial.
    unfold GoLiveScreen.after_go_live. rewrite Ht, !app_comm_cons.
    now rewrite EffFacts.commit_app.
Qed.

Lemma busy_flag_cleared_last_witness :
  (exists mid,
     trace (CreateCampaignScreen.handleLaunchCampaign
              Samples.net_created Samples.clean_water)
     = SetState (CreateCampaignScreen.setIsLoading true)
       :: Fetch CreateCampaignScreen.url (str "POST")
            CreateCampaignScreen.post_headers
            (CreateCampaignScreen.payload Samples.clean_water)
       :: mid ++ [ SetState (CreateCampaignScreen.setIsLoading false) ]
     /\ length (alert_messages mid) = 1
     /\ (forall u, ~ In (SetState u) mid)
     /\ CreateCampaignScreen.isLoading
          (CreateCampaignScreen.after_launch
             Samples.net_created Samples.clean_water) = false)
  /\
  (exists mid,
     trace (GoLiveScreen.handleGoLive Samples.net_down Samples.morning_stream)
     = SetState (GoLiveScreen.setIsLoading true)
       :: Fetch GoLiveScreen.url (str "POST") GoLiveScreen.post_headers
            (GoLiveScreen.payload Samples.morning_stream)
       :: mid ++ [ SetState (GoLiveScreen.setIsLoading false) ]
     /\ length (alert_messages mid) = 1
     /\ (forall u, ~ In (SetState u) mid)
     /\ GoLiveScreen.isLoading
          (GoLiveScreen.after_go_live Samples.net_down Samples.morning_stream)
        = false).
Proof.
  split.
  - apply (proj1 busy_flag_cleared_last
             Samples.net_created Samples.clean_water).
    reflexivity.
  - apply (proj2 busy_flag_cleared_last
             Samples.net_down Samples.morning_stream); reflexivity.
Defined.

End SubmissionFacts.

(** ** More of the Create Campaign screen *)

Module CampaignMore.

Import JS Eff CreateCampaignScreen.

(** What a run does to the state once the form is through validation:
    the flag goes up, then down, and nothing else is written. *)
Lemma launch_after_submitted (net : network) (s : state) :
  passes s ->
  after_launch net s
  = apply (setIsLoading false) (apply (setIsLoading true) s).
Proof.
  intros Hp.
  destruct (CampaignFacts.launch_shape net s Hp) as (mid & Ht & _ & _ & Hs).
  unfold after_launch. rewrite Ht, !app_comm_cons, EffFacts.commit_app.
  cbn [commit fold_left]. f_equal.
  exact (EffFacts.commit_no_setters apply _ mid Hs).
Qed.

(** X1.  A form that fails validation is answered with one "Error" alert
    carrying one of the four validation messages; nothing is sent and the
    state, the entered values included, stays as it was. *)
Theorem refused_launch_changes_nothing (net : network) (s : state) :
  ~ passes s ->
  (exists m,
     In m [msg_title; msg_description; msg_goal; msg_duration] /\
     handleLaunchCampaign net s
     = (Done tt, [ AlertAlert (str "Error") (VStr (str m)) [] ]))
  /\ requests (trace (handleLaunchCampaign net s)) = []
  /\ after_launch net s = s.
Proof.
  intros Hn.
  destruct (CampaignFacts.campaign_validateForm_cases s)
    as [Hp|(m & Hm & Hv)]; [contradiction|].
  pose proof (CampaignFacts.launch_refused net s _ Hv) as Hr.
  split; [now exists m|].
  unfold after_launch. rewrite Hr. split; reflexivity.
Qed.

Lemma refused_launch_changes_nothing_witness :
  (exists m,
     In m [msg_title; msg_description; msg_goal; msg_duration] /\
     handleLaunchCampaign Samples.net_created initial
     = (Done tt, [ AlertAlert (str "Error") (VStr (str m)) [] ]))
  /\ requests (trace (handleLaunchCampaign Samples.net_created initial)) = []
  /\ after_launch Samples.net_created initial = initial.
Proof.
  apply (refused_launch_changes_nothing Samples.net_created initial).
  vm_compute. discriminate.
Defined.

(** X2.  Validation reports the first check that fails, in the order
    title, description, funding goal, duration: a later field is only
    looked at once the earlier ones are in. *)
Theorem validation_reports_first_failure (net : network) (s : state) :
  (trim (title s) = [] ->
   handleLaunchCampaign net s
   = (Done tt, [ AlertAlert (str "Error") (VStr (str msg_title)) [] ]))
  /\
  (trim (title s) <> [] -> trim (description s) = [] ->
   handleLaunchCampaign net s
   = (Done tt, [ AlertAlert (str "Error") (VStr (str msg_description)) [] ]))
  /\
  (trim (title s) <> [] -> trim (description s) <> [] ->
   fundingGoal s = [] \/ le_zero (parseFloat (fundingGoal s)) = true ->
   handleLaunchCampaign net s
   = (Done tt, [ AlertAlert (str "Error") (VStr (str msg_goal)) [] ]))
  /\
  (trim (title s) <> [] -> trim (description s) <> [] ->
   fundingGoal s <> [] -> le_zero (parseFloat (fundingGoal s)) = false ->
   duration s = [] \/ le_zero (parseInt (duration s)) = true ->
   handleLaunchCampaign net s
   = (Done tt, [ AlertAlert (str "Error") (VStr (str msg_duration)) [] ])).
Proof.
  repeat split.
  - intros Ht. apply CampaignFacts.launch_refused.
    unfold validateForm. now rewrite Ht.
  - intros Ht Hd. apply JSFacts.nonempty_true in Ht.
    apply CampaignFacts.launch_refused.
    unfold validateForm. now rewrite Ht, Hd.
  - intros Ht Hd Hg. apply CampaignFacts.goal_refused; trivial;
      now apply JSFacts.nonempty_true.
  - intros Ht Hd Hg Hg' Hn. apply CampaignFacts.duration_refused; trivial;
      now apply JSFacts.nonempty_true.
Qed.

Lemma validation_reports_first_failure_witness :
  handleLaunchCampaign Samples.net_created
    (Samples.campaign_form "  " "" "0" "" "")
  = (Done tt, [ AlertAlert (str "Error") (VStr (str msg_title)) [] ])
  /\
  handleLaunchCampaign Samples.net_created
    (Samples.campaign_form "Wells" " " "0" "" "")
  = (Done tt, [ AlertAlert (str "Error") (VStr (str msg_description)) [] ])
  /\
  handleLaunchCampaign Samples.net_created
    (Samples.campaign_form "Wells" "Dig wells" "-5" "" "")
  = (Done tt, [ AlertAlert (str "Error") (VStr (str msg_goal)) [] ])
  /\
  handleLaunchCampaign Samples.net_created
    (Samples.campaign_form "Wells" "Dig wells" "5000" "0" "")
  = (Done tt, [ AlertAlert (str "Error") (VStr (str msg_duration)) [] ]).
Proof.
  split; [|split; [|split]].
  - apply (proj1 (validation_reports_first_failure Samples.net_created
                    (Samples.campaign_form "  " "" "0" "" ""))).
    reflexivity.
  - apply (proj1 (proj2 (validation_reports_first_failure Samples.net_created
                           (Samples.campaign_form "Wells" " " "0" "" ""))));
      [vm_compute; discriminate|reflexivity].
  - apply (proj1 (proj2 (proj2
             (validation_reports_first_failure Samples.net_created
                (Samples.campaign_form "Wells" "Dig wells" "-5" "" "")))));
      [vm_compute; discriminate|vm_compute; discriminate|].
    right. reflexivity.
  - apply (proj2 (proj2 (proj2
             (validation_reports_first_failure Samples.net_created
                (Samples.campaign_form "Wells" "Dig wells" "5000" "0" "")))));
      [vm_compute; discriminate|vm_compute; discriminate
      |vm_compute; discriminate|reflexivity|].
    right. reflexivity.
Defined.





(** X5.  Whatever the network does with a submitted form (success,
    rejection, failure), the handler writes nothing but the busy flag: the
    five fields are as entered and the flag is down afterwards. *)
Theorem submitted_launch_keeps_fields (net : network) (s : state) :
  passes s ->
  after_launch net s
  = State (title s) (description s) (fundingGoal s) (duration s) (tags s)
          false.
Proof.
  intros Hp. now rewrite (launch_after_submitted net s Hp).
Qed.

Lemma submitted_launch_keeps_fields_witness :
  after_launch (Samples.net_declines "no") Samples.clean_water
  = State (title Samples.clean_water) (description Samples.clean_water)
          (fundingGoal Samples.clean_water) (duration Samples.clean_water)
          (tags Samples.clean_water) false.
Proof.
  apply (submitted_launch_keeps_fields (Samples.net_declines "no")
           Samples.clean_water).
  reflexivity.
Defined.

(** X6.  Three edges of the response body.  A body that cannot be read as
    JSON is reported as a network error even when the response is ok, since
    the body is read before [response.ok] is looked at; a rejection whose
    body is [null] is reported as a network error too, since reading
    [data.detail] throws; a rejection whose body is an object without a
    [detail], or is not an object, shows the fallback message. *)
Theorem response_body_edges (net : network) (s : state) :
  passes s ->
  (forall okay reason,
     net url (payload s) = Resolved (Response okay (Rejected reason)) ->
     alert_messages (trace (handleLaunchCampaign net s))
     = [ VStr (str msg_network) ])
  /\
  (net url (payload s) = Resolved (Response false (Resolved VNull)) ->
   alert_messages (trace (handleLaunchCampaign net s))
   = [ VStr (str msg_network) ]
   /\ In (ConsoleError (str "Campaign creation error:") VTypeError)
         (trace (handleLaunchCampaign net s)))
  /\
  (forall data,
     net url (payload s) = Resolved (Response false (Resolved data)) ->
     get data (str "detail") = Some VUndefined ->
     alert_messages (trace (handleLaunchCampaign net s))
     = [ VStr (str msg_fallback) ]).
Proof.
  intros Hp. split; [|split].
  - intros okay reason Hn.
    assert (Hf : transport_failure (net url (payload s)) = Some reason)
      by now rewrite Hn.
    now rewrite (CampaignFacts.launch_on_failure net s reason Hp Hf).
  - intros Hn.
    rewrite (CampaignFacts.launch_on_null_body net s VNull Hp Hn eq_refl).
    split; [reflexivity|]. cbn. auto.
  - intros data Hn Hd.
    now rewrite (CampaignFacts.launch_on_rejection net s data _ Hp Hn Hd).
Qed.

Lemma response_body_edges_witness :
  alert_messages
    (trace (handleLaunchCampaign
              (fun _ _ => Resolved (Response true (Rejected VTypeError)))
              Samples.clean_water))
  = [ VStr (str msg_network) ]
  /\
  alert_messages
    (trace (handleLaunchCampaign
              (fun _ _ => Resolved (Response false (Resolved (VObj []))))
              Samples.clean_water))
  = [ VStr (str msg_fallback) ].
Proof.
  split.
  - apply (proj1 (response_body_edges
                    (fun _ _ => Resolved (Response true (Rejected VTypeError)))
                    Samples.clean_water (eq_refl _)) true VTypeError).
    reflexivity.
  - apply (proj2 (proj2 (response_body_edges
                    (fun _ _ => Resolved (Response false (Resolved (VObj []))))
                    Samples.clean_water (eq_refl _))) (VObj []));
      reflexivity.
Defined.

Lemma normalize_tags_no_comma (input t : jsstring) :
  In t (normalize_tags input) -> ~ In comma t.
Proof.
  unfold normalize_tags. intros Ht Hc.
  apply filter_In in Ht as [Ht _].
  apply in_map_iff in Ht as (g & <- & Hg).
  apply JSFacts.In_trim in Hc.
  pose proof (JSFacts.split_free comma input) as Hf.
  rewrite Forall_forall in Hf. exact (Hf g Hg Hc).
Qed.

(** A list of trimmed, non-empty, comma-free tags is what its own
    comma-joined text normalizes to. *)
Lemma normalize_join (l : list jsstring) :
  Forall (fun t => trimmed t /\ t <> [] /\ ~ In comma t) l ->
  normalize_tags (join comma l) = l.
Proof.
  intros Hl. unfold normalize_tags.
  destruct l as [|t l']; [reflexivity|].
  rewrite JSFacts.split_join; [|discriminate|].
  - induction Hl as [|x xs (Hx & Hne & _) _ IH]; [reflexivity|].
    cbn [map filter]. rewrite (JSFacts.trim_trimmed x Hx).
    apply JSFacts.nonempty_true in Hne. rewrite Hne. now f_equal.
  - eapply Forall_impl; [|exact Hl]. cbn. tauto.
Qed.

(** X7.  Tag normalization is stable: the tags of a request, joined by
    commas and entered again, normalize to the same tags. *)
Theorem tags_round_trip (input : jsstring) :
  normalize_tags (join comma (normalize_tags input)) = normalize_tags input.
Proof.
  apply normalize_join. apply Forall_forall. intros t Ht.
  pose proof (CampaignFacts.normalize_tags_clean input) as Hc.
  rewrite Forall_forall in Hc. destruct (Hc t Ht) as [H1 H2].
  split; [exact H1|]. split; [exact H2|].
  exact (normalize_tags_no_comma input t Ht).
Qed.

(** X8.  A tags input made of white space and commas only, the empty
    input included, gives no tags. *)
Theorem blank_tags_give_none (input : jsstring) :
  forallb (fun c => is_whitespace c || (c =? comma)%N) input = true ->
  normalize_tags input = [].
Proof.
  intros Hb. unfold normalize_tags.
  pose proof (JSFacts.split_free comma input) as Hf.
  rewrite Forall_forall in Hf. rewrite forallb_forall in Hb.
  assert (Hall : forall g, In g (split comma input) -> trim g = []).
  { intros g Hg. apply JSFacts.trim_blank. apply forallb_forall.
    intros c Hc. specialize (Hb c (JSFacts.In_split comma c input g Hg Hc)).
    apply orb_prop in Hb as [Hb|Hb]; [exact Hb|].
    apply N.eqb_eq in Hb. subst c. now destruct (Hf g Hg). }
  induction (split comma input) as [|g gs IH]; [reflexivity|].
  cbn [map filter]. rewrite (Hall g (or_introl eq_refl)). cbn.
  apply IH.
  - intros x Hx. apply Hf. now right.
  - intros x Hx. apply Hall. now right.
Qed.

Lemma blank_tags_give_none_witness :
  normalize_tags (str " , ,,  ") = [].
Proof.
  apply (blank_tags_give_none (str " , ,,  ")). reflexivity.
Defined.

End CampaignMore.

(** ** More of the Go Live screen *)

Module GoLiveMore.

Import JS Eff GoLiveScreen.

Lemma granted_iff (s : state) : granted s = true <-> hasPermission s = Some true.
Proof.
  unfold granted. destruct (hasPermission s) as [[|]|]; split; congruence.
Qed.

(** What a run does to the state once the form is through both gates. *)
Lemma go_live_after_submitted (net : network) (s : state) :
  passes s -> granted s = true ->
  after_go_live net s
  = apply (setIsLoading false) (apply (setIsLoading true) s).
Proof.
  intros Hp Hg.
  destruct (GoLiveFacts.go_live_shape net s Hp Hg) as (mid & Ht & _ & _ & Hs).
  unfold after_go_live. rewrite Ht, !app_comm_cons, EffFacts.commit_app.
  cbn [commit fold_left]. f_equal.
  exact (EffFacts.commit_no_setters apply _ mid Hs).
Qed.

(** The alert of a submitted form is the success one or the failure one. *)
Lemma submitted_alert (net : network) (s : state) :
  passes s -> granted s = true ->
  alert_messages (trace (handleGoLive net s))
  = [ VStr (str "Your stream is now broadcasting to the world!") ]
  \/ alert_messages (trace (handleGoLive net s)) = [ VStr (str msg_failed) ].
Proof.
  intros Hp Hg.
  destruct (transport_failure (net url (payload s))) as [r|] eqn:Ht.
  - right. now rewrite (GoLiveFacts.go_live_on_failure net s r Hp Hg Ht).
  - destruct (net url (payload s)) as [[o [data|r]]|r] eqn:En;
      cbn in Ht; try discriminate.
    destruct o.
    + left. now rewrite (GoLiveFacts.go_live_on_success net s data Hp Hg En).
    + right. destruct (get data (str "detail")) as [d|] eqn:Ed.
      * now rewrite (GoLiveFacts.go_live_on_rejection net s data d Hp Hg En Ed).
      * now rewrite (GoLiveFacts.go_live_on_null_body net s data Hp Hg En Ed).
Qed.

(** X9.  The permission effect sets [hasPermission] to [true] exactly when
    both the camera and the microphone status are "granted"; in every other
    case it sets it to [false] and raises the "Permissions Required" alert
    with a "Cancel" and an "Open Settings" button.  Either way the loading
    view is left and no other state is written. *)
Theorem permission_effect (cameraStatus audioStatus : jsstring) (s : state) :
  (cameraStatus = str "granted" /\ audioStatus = str "granted" ->
   trace (requestPermissions cameraStatus audioStatus)
   = [ SetState (setHasPermission true) ])
  /\
  (~ (cameraStatus = str "granted" /\ audioStatus = str "granted") ->
   trace (requestPermissions cameraStatus audioStatus)
   = [ SetState (setHasPermission false);
       AlertAlert (str "Permissions Required")
         (VStr (str "Camera and microphone access are required to go live."))
         [ Button (str "Cancel") (Some (str "cancel")) [];
           Button (str "Open Settings") None [ OpenSettings ] ] ])
  /\
  (render (commit apply s (trace (requestPermissions cameraStatus audioStatus)))
   = GoLiveForm
   <-> cameraStatus = str "granted" /\ audioStatus = str "granted")
  /\
  render (commit apply s (trace (requestPermissions cameraStatus audioStatus)))
  <> CheckingPermissions
  /\
  (exists b,
     commit apply s (trace (requestPermissions cameraStatus audioStatus))
     = apply (setHasPermission b) s).
Proof.
  unfold requestPermissions.
  destruct (eqb_str cameraStatus (str "granted")
            && eqb_str audioStatus (str "granted")) eqn:E.
  - apply andb_prop in E as [Ec Ea].
    apply JSFacts.eqb_str_eq in Ec, Ea.
    split; [reflexivity|]. split; [intros H; now destruct H|].
    split; [cbn; tauto|]. split; [discriminate|]. now exists true.
  - assert (Hn : ~ (cameraStatus = str "granted"
                    /\ audioStatus = str "granted")).
    { intros [Hc Ha]. apply JSFacts.eqb_str_eq in Hc, Ha.
      rewrite Hc, Ha in E. discriminate. }
    split; [intros H; now destruct Hn|]. split; [reflexivity|].
    split; [cbn; split; [discriminate|intros H; now destruct Hn]|].
    split; [discriminate|]. now exists false.
Qed.

Lemma permission_effect_witness :
  trace (requestPermissions (str "granted") (str "granted"))
  = [ SetState (setHasPermission true) ]
  /\
  trace (requestPermissions (str "granted") (str "denied"))
  = [ SetState (setHasPermission false);
      AlertAlert (str "Permissions Required")
        (VStr (str "Camera and microphone access are required to go live."))
        [ Button (str "Cancel") (Some (str "cancel")) [];
          Button (str "Open Settings") None [ OpenSettings ] ] ].
Proof.
  split.
  - apply (proj1 (permission_effect (str "granted") (str "granted") initial)).
    split; reflexivity.
  - apply (proj1 (proj2 (permission_effect (str "granted") (str "denied")
                           initial))).
    vm_compute. intros [_ H]. discriminate H.
Defined.

(** X10.  Flipping the camera writes only [cameraType], always to the
    other side, so flipping twice (the second press from the render after
    the first) gives the state back. *)
Theorem flip_twice (s : state) :
  let s1 := commit apply s (trace (flipCamera s)) in
  cameraType s1 <> cameraType s
  /\ s1 = State (title s) (description s) (category s) (hasPermission s)
               (isLoading s) (cameraType s1) (showPreview s)
  /\ commit apply s1 (trace (flipCamera s1)) = s.
Proof.
  destruct s as [t d c h l k p]. destruct k; cbn; repeat split; discriminate.
Qed.

(** X11.  The submit handler writes nothing but the busy flag.  A form
    that goes out leaves the state as it was with the flag down, whatever
    the outcome; a form that is stopped (validation or permission) leaves
    the state untouched. *)
Theorem go_live_writes_only_busy (net : network) (s : state) :
  (passes s -> hasPermission s = Some true ->
   after_go_live net s
   = State (title s) (description s) (category s) (hasPermission s) false
           (cameraType s) (showPreview s))
  /\
  (~ (passes s /\ hasPermission s = Some true) -> after_go_live net s = s).
Proof.
  split.
  - intros Hp Hg. apply granted_iff in Hg.
    now rewrite (go_live_after_submitted net s Hp Hg).
  - intros Hn.
    assert (Hn' : ~ (passes s /\ granted s = true))
      by (rewrite granted_iff; exact Hn).
    destruct (GoLiveFacts.go_live_stopped net s Hn') as (t & m & Ht).
    unfold after_go_live. now rewrite Ht.
Qed.

Lemma go_live_writes_only_busy_witness :
  after_go_live Samples.net_down Samples.morning_stream
  = State (title Samples.morning_stream) (description Samples.morning_stream)
          (category Samples.morning_stream)
          (hasPermission Samples.morning_stream) false
          (cameraType Samples.morning_stream)
          (showPreview Samples.morning_stream)
  /\ after_go_live Samples.net_down initial = initial.
Proof.
  split.
  - apply (proj1 (go_live_writes_only_busy Samples.net_down
                    Samples.morning_stream)); reflexivity.
  - apply (proj2 (go_live_writes_only_busy Samples.net_down initial)).
    vm_compute. intros [H _]. discriminate H.
Defined.

(** X12.  On the livestream screen every outcome other than an ok response
    with a readable body ends the same way: the error is logged, then the
    one fixed "Failed to start live stream" alert with an "OK" button is
    raised.  The user cannot tell a rejection from a transport failure. *)
Theorem live_failures_look_alike (net : network) (s : state) :
  passes s -> hasPermission s = Some true ->
  (forall data,
     net url (payload s) <> Resolved (Response true (Resolved data))) ->
  exists err,
    handleGoLive net s
    = (Done tt,
       [ SetState (setIsLoading true);
         Fetch url (str "POST") post_headers (payload s);
         ConsoleError (str "Error starting stream:") err;
         AlertAlert (str "Error") (VStr (str msg_failed))
           [ Button (str "OK") None [] ];
         SetState (setIsLoading false) ]).
Proof.
  intros Hp Hg Hno. apply granted_iff in Hg.
  destruct (transport_failure (net url (payload s))) as [r|] eqn:Ht.
  - exists r. exact (GoLiveFacts.go_live_on_failure net s r Hp Hg Ht).
  - destruct (net url (payload s)) as [[o [data|r]]|r] eqn:En;
      cbn in Ht; try discriminate.
    destruct o; [now destruct (Hno data)|].
    destruct (get data (str "detail")) as [d|] eqn:Ed.
    + eexists.
      exact (GoLiveFacts.go_live_on_rejection net s data d Hp Hg En Ed).
    + eexists.
      exact (GoLiveFacts.go_live_on_null_body net s data Hp Hg En Ed).
Qed.

Lemma live_failures_look_alike_witness :
  exists err,
    handleGoLive Samples.net_down Samples.morning_stream
    = (Done tt,
       [ SetState (setIsLoading true);
         Fetch url (str "POST") post_headers (payload Samples.morning_stream);
         ConsoleError (str "Error starting stream:") err;
         AlertAlert (str "Error") (VStr (str msg_failed))
           [ Button (str "OK") None [] ];
         SetState (setIsLoading false) ]).
Proof.
  apply (live_failures_look_alike Samples.net_down Samples.morning_stream);
    [reflexivity|reflexivity|].
  intros data. vm_compute. discriminate.
Defined.

(** X13.  On success the alert has the one button "Start Streaming";
    pressing it navigates to the streaming screen with the [id] and the
    [stream_key] of the response body as [streamId] and [streamKey]
    ([undefined] for a key the body lacks) and writes no state. *)
Theorem start_streaming_hands_over (net : network) (s : state)
    (props : list (jsstring * jsval)) :
  passes s -> hasPermission s = Some true ->
  net url (payload s) = Resolved (Response true (Resolved (VObj props))) ->
  exists press,
    trace (handleGoLive net s)
    = [ SetState (setIsLoading true);
        Fetch url (str "POST") post_headers (payload s);
        AlertAlert live_title
          (VStr (str "Your stream is now broadcasting to the world!"))
          [ Button (str "Start Streaming") None press ];
        SetState (setIsLoading false) ]
    /\ press
       = [ Navigate (str "LiveStreaming")
             (VObj [ (str "streamId", lookup (str "id") props);
                     (str "streamKey", lookup (str "stream_key") props) ]) ]
    /\ (forall s', commit apply s' press = s').
Proof.
  intros Hp Hg Hn. apply granted_iff in Hg.
  rewrite (GoLiveFacts.go_live_on_success net s _ Hp Hg Hn).
  eexists. split; [reflexivity|]. split; reflexivity.
Qed.

Lemma start_streaming_hands_over_witness :
  exists press,
    trace (handleGoLive Samples.net_created Samples.morning_stream)
    = [ SetState (setIsLoading true);
        Fetch url (str "POST") post_headers (payload Samples.morning_stream);
        AlertAlert live_title
          (VStr (str "Your stream is now broadcasting to the world!"))
          [ Button (str "Start Streaming") None press ];
        SetState (setIsLoading false) ]
    /\ press
       = [ Navigate (str "LiveStreaming")
             (VObj [ (str "streamId", VNum (Dec false 7 0));
                     (str "streamKey", VStr (str "k")) ]) ]
    /\ (forall s', commit apply s' press = s').
Proof.
  apply (start_streaming_hands_over Samples.net_created Samples.morning_stream
           [ (str "id", VNum (Dec false 7 0));
             (str "stream_key", VStr (str "k")) ]); reflexivity.
Defined.

(** X14.  The form, and with it the submit button, is rendered only when
    [hasPermission] is [true]; a submission made from a rendered form
    therefore never gets the "No Permission" alert. *)
Theorem form_never_asks_permission (net : network) (s : state) :
  render s = GoLiveForm ->
  hasPermission s = Some true
  /\ ~ In (VStr (str msg_permission))
         (alert_messages (trace (handleGoLive net s))).
Proof.
  intros Hr.
  assert (Hg : hasPermission s = Some true).
  { unfold render in Hr. destruct (hasPermission s) as [[|]|];
      [reflexivity|discriminate|discriminate]. }
  split; [exact Hg|]. apply granted_iff in Hg.
  destruct (GoLiveFacts.live_validateForm_cases s)
    as [Hp|(t & m & Hm & Hv)].
  - destruct (submitted_alert net s Hp Hg) as [Ha|Ha]; rewrite Ha;
      intros [H|[]]; vm_compute in H; discriminate H.
  - rewrite (GoLiveFacts.go_live_refused net s _ Hv).
    intros [H|[]]. cbn in Hm.
    destruct Hm as [Hm|[Hm|[Hm|[]]]]; injection Hm as <- <-;
      vm_compute in H; discriminate H.
Qed.

Lemma form_never_asks_permission_witness :
  hasPermission Samples.morning_stream = Some true
  /\ ~ In (VStr (str msg_permission))
         (alert_messages
            (trace (handleGoLive Samples.net_down Samples.morning_stream))).
Proof.
  apply (form_never_asks_permission Samples.net_down Samples.morning_stream).
  reflexivity.
Defined.

(** X15.  Validation reports the first check that fails, in the order
    blank title, title under three code units, no category, and it runs
    before the permission is looked at: these alerts come up whatever
    [hasPermission] is. *)
Theorem live_validation_order (net : network) (s : state) :
  (trim (title s) = [] ->
   handleGoLive net s
   = (Done tt, [ AlertAlert (str "Missing Information")
                   (VStr (str msg_title)) [] ]))
  /\
  (trim (title s) <> [] -> length (title s) < 3 ->
   handleGoLive net s
   = (Done tt, [ AlertAlert (str "Title Too Short")
                   (VStr (str msg_short)) [] ]))
  /\
  (trim (title s) <> [] -> 3 <= length (title s) -> category s = [] ->
   handleGoLive net s
   = (Done tt, [ AlertAlert (str "Missing Category")
                   (VStr (str msg_category)) [] ])).
Proof.
  split; [|split].
  - intros Ht. apply GoLiveFacts.go_live_refused.
    unfold validateForm. now rewrite Ht.
  - intros Ht Hl. apply JSFacts.nonempty_true in Ht.
    assert (Hlt : (N.of_nat (length (title s)) <? 3)%N = true)
      by (apply N.ltb_lt; lia).
    apply GoLiveFacts.go_live_refused.
    unfold validateForm. now rewrite Ht, Hlt.
  - intros Ht Hl Hc. apply JSFacts.nonempty_true in Ht.
    assert (Hge : (N.of_nat (length (title s)) <? 3)%N = false)
      by (apply N.ltb_ge; lia).
    apply GoLiveFacts.go_live_refused.
    unfold validateForm. now rewrite Ht, Hge, Hc.
Qed.

Lemma live_validation_order_witness :
  handleGoLive Samples.net_created (Samples.live_form " " "" "")
  = (Done tt, [ AlertAlert (str "Missing Information")
                  (VStr (str msg_title)) [] ])
  /\
  handleGoLive Samples.net_created (Samples.live_form "ab" "" "")
  = (Done tt, [ AlertAlert (str "Title Too Short")
                  (VStr (str msg_short)) [] ])
  /\
  handleGoLive Samples.net_created (Samples.live_form "abc" "" "")
  = (Done tt, [ AlertAlert (str "Missing Category")
                  (VStr (str msg_category)) [] ]).
Proof.
  split; [|split].
  - apply (proj1 (live_validation_order Samples.net_created
                    (Samples.live_form " " "" ""))).
    reflexivity.
  - apply (proj1 (proj2 (live_validation_order Samples.net_created
                           (Samples.live_form "ab" "" ""))));
      [vm_compute; discriminate|vm_compute; lia].
  - apply (proj2 (proj2 (live_validation_order Samples.net_created
                           (Samples.live_form "abc" "" ""))));
      [vm_compute; discriminate|vm_compute; lia|reflexivity].
Defined.

(** X16.  What a request of the livestream screen carries, and when: the
    permission is granted and the title as entered has three code units or
    more; the title sent is trimmed and not empty and no longer than the
    entered one, the description is trimmed, the category is not empty, the
    status is "live" and the viewer count 0. *)
Theorem sent_live_fields (net : network) (s : state) (body : jsval) :
  In body (requests (trace (handleGoLive net s))) ->
  hasPermission s = Some true
  /\ 3 <= length (title s)
  /\ exists t d c,
       body = VObj [ (str "title", VStr t); (str "description", VStr d);
                     (str "category", VStr c);
                     (str "status", VStr (str "live"));
                     (str "viewer_count", VNum (Dec false 0 0)) ]
       /\ trimmed t /\ t <> [] /\ length t <= length (title s)
       /\ trimmed d /\ c = category s /\ c <> [].
Proof.
  intros Hin.
  destruct (GoLiveFacts.go_live_requests net s) as [(Hp & Hg & H)|[_ H]];
    rewrite H in Hin; [|destruct Hin].
  destruct Hin as [<-|[]].
  apply GoLiveFacts.live_passes_iff in Hp as (Ht & Hl & Hc).
  split; [now apply granted_iff|].
  split; [apply N.ltb_ge in Hl; lia|].
  do 3 eexists. split; [reflexivity|].
  split; [apply JSFacts.trimmed_trim|].
  split; [now apply JSFacts.nonempty_true|].
  split; [apply JSFacts.length_trim_le|].
  split; [apply JSFacts.trimmed_trim|].
  split; [reflexivity|now apply JSFacts.nonempty_true].
Qed.

Lemma sent_live_fields_witness :
  hasPermission Samples.morning_stream = Some true
  /\ 3 <= length (title Samples.morning_stream)
  /\ exists t d c,
       payload Samples.morning_stream
       = VObj [ (str "title", VStr t); (str "description", VStr d);
                (str "category", VStr c);
                (str "status", VStr (str "live"));
                (str "viewer_count", VNum (Dec false 0 0)) ]
       /\ trimmed t /\ t <> []
       /\ length t <= length (title Samples.morning_stream)
       /\ trimmed d /\ c = category Samples.morning_stream /\ c <> [].
Proof.
  apply (sent_live_fields Samples.net_created Samples.morning_stream).
  vm_compute. left. reflexivity.
Defined.

End GoLiveMore.

(** ** More of both screens *)

Module SubmissionMore.

Import JS Eff.


End SubmissionMore.
